(** * shortener.py: entry lifecycle and expiry of the URL shortener

    A shallow embedding of the mapping store ([save_mapping], [get_row]),
    the code generator ([generate_code]), the cleanup daemon ([cleanup]),
    and the handlers [upload_file], [redirect_code] and [metadata] of
    [src/shortener.py], followed by the properties of the entry
    lifecycle.

    Modelling conventions.
    - The [urls] table (primary key [code]) is a [gmap string Row].
    - The file system is seen through the set of its regular files, each
      under its canonical name; [realpath] gives the canonical name of
      the file a path denotes, so that two spellings of one file
      ([static/uploads/../logo.png], [static/logo.png]) are one file.
      No path ends in a symbolic link.
    - [time.time()] is a rational number of seconds; [int] truncates it.
      Each call site that reads the clock takes its own reading.
    - What the operating system or SQLite decides is an explicit input:
      whether [os.remove] succeeds on a path, whether the [UPDATE] of a
      lookup raises, which indices [random.choices] picks.
    - An SQL statement is atomic; other SQLite calls are modelled on the
      path where the database is available. *)

From Stdlib Require Import ZArith QArith Qround Lia Lqa Ascii.
From stdpp Require Import gmap strings list fin_maps pretty sorting.

(** ** Python and POSIX primitives the source relies on *)

Module Py.

(** [s.startswith(p)] *)
Definition startswith (s p : string) : bool := String.prefix p s.

(** [s.replace(old, new, 1)]: the leftmost occurrence only. *)
Fixpoint replace_first (old new s : string) : string :=
  if String.prefix old s
  then new +:+ String.substring (String.length old)
                 (String.length s - String.length old) s
  else match s with
       | EmptyString => EmptyString
       | String c s' => String c (replace_first old new s')
       end.

(** [str.isspace] on one character, for code points below 256. *)
Definition isspace (c : ascii) : bool :=
  let n := nat_of_ascii c in
  (((9 <=? n) && (n <=? 13)) || ((28 <=? n) && (n <=? 32))
   || (n =? 133) || (n =? 160))%nat.

Fixpoint lstrip (s : string) : string :=
  match s with
  | EmptyString => EmptyString
  | String c s' => if isspace c then lstrip s' else s
  end.

Definition rstrip (s : string) : string :=
  String.rev (lstrip (String.rev s)).

(** [s.strip()] *)
Definition strip (s : string) : string := rstrip (lstrip s).

(** Truth value of a [str]. *)
Definition truthy (s : string) : bool :=
  match s with EmptyString => false | _ => true end.

(** [a or b] on strings; [b] is only evaluated when [a] is empty. *)
Definition or_else (a : string) (b : unit → string) : string :=
  if truthy a then a else b tt.

Definition endswith_slash (s : string) : bool :=
  match String.rev s with String "/" _ => true | _ => false end.

(** [os.path.join(a, b)] on POSIX. *)
Definition os_path_join (a b : string) : string :=
  if startswith b "/" then b
  else if negb (truthy a) || endswith_slash a then a +:+ b
  else a +:+ "/" +:+ b.

(** [int(x)] on a float: truncation towards zero. *)
Definition int (x : Q) : Z := Z.quot (Qnum x) (Zpos (Qden x)).

(** [string.ascii_letters + string.digits] *)
Definition ascii_lowercase : string := "abcdefghijklmnopqrstuvwxyz".
Definition ascii_uppercase : string := "ABCDEFGHIJKLMNOPQRSTUVWXYZ".
Definition ascii_letters : string := ascii_lowercase +:+ ascii_uppercase.
Definition digits : string := "0123456789".

(** [random.choices(population, k=k)]: [k] independent picks with
    replacement ([k <= 0] gives the empty list).  The [i]-th pick takes
    the element at index [entropy i] reduced into the population's
    range. *)
Definition random_choices (entropy : nat → nat) (population : list ascii)
    (k : Z) : list ascii :=
  (λ i, nth (entropy i mod length population) population "000"%char)
    <$> seq 0 (Z.to_nat k).

(** ["".join(chars)] *)
Definition join_chars (l : list ascii) : string := String.string_of_list_ascii l.

(** [path.split("/")] *)
Fixpoint components (path : string) : list string :=
  match path with
  | EmptyString => [EmptyString]
  | String c path' =>
      if Ascii.eqb c "/" then EmptyString :: components path'
      else match components path' with
           | [] => [String c EmptyString]
           | comp :: comps => String c comp :: comps
           end
  end.

(** ["/".join(comps)] *)
Fixpoint join_slash (comps : list string) : string :=
  match comps with
  | [] => EmptyString
  | [comp] => comp
  | comp :: comps' => comp +:+ "/" +:+ join_slash comps'
  end.

(** [os.path.normpath(path)] on POSIX: empty and [.] components are
    dropped, [..] takes back the component before it, and exactly two
    leading slashes are kept.  [new_comps] is held last-first. *)
Definition normpath (path : string) : string :=
  if negb (truthy path) then "." else
  let initial_slashes :=
    if startswith path "//" && negb (startswith path "///") then 2
    else if startswith path "/" then 1 else 0 in
  let new_comps :=
    foldl (λ new_comps comp,
             if String.eqb comp "" || String.eqb comp "." then new_comps
             else if negb (String.eqb comp "..")
                     || ((initial_slashes =? 0)%nat
                         && match new_comps with [] => true | _ => false end)
                     || match new_comps with
                        | last :: _ => String.eqb last ".."
                        | [] => false
                        end
                  then comp :: new_comps
                  else match new_comps with
                       | [] => []
                       | _ :: rest => rest
                       end)
      [] (components path) in
  let joined :=
    String.string_of_list_ascii (replicate initial_slashes "/"%char)
    +:+ join_slash (reverse new_comps) in
  if truthy joined then joined else ".".

End Py.

(** ** Configuration *)

Definition UPLOAD_FOLDER : string := Py.os_path_join "static" "uploads".
Definition PORT : Z := 5050%Z.
Definition DELETE_AFTER_SECONDS : Z := (10 * 60)%Z.

(** What the deployment, werkzeug and the file system provide.
    [realpath path] is the canonical name of the file that [path]
    denotes from the working directory of the process.  The directories
    and links it goes through stay as they are while the service runs:
    the service creates and removes regular files only. *)
Class Platform := {
  LOCAL_IP : string;
  secure_filename : string → string;
  safe_join : string → string → option string;
  realpath : string → string
}.

(** ** Data model *)

(** One row of [urls], without its key. *)
Record Row := mkRow {
  target : string;
  created_at : Z;
  hits : Z
}.

Global Instance Row_eq_dec : EqDecision Row.
Proof. solve_decision. Defined.

(** The database file and the file system. *)
Record State := mkState {
  urls : gmap string Row;
  files : gset string
}.

Definition init_db : State := {| urls := ∅; files := ∅ |}.

(** ** Database helpers *)

Definition generate_code (entropy : nat → nat) (length : Z) : string :=
  Py.join_chars
    (Py.random_choices entropy
       (String.list_ascii_of_string (Py.ascii_letters +:+ Py.digits)) length).

(** [INSERT OR REPLACE INTO urls VALUES (code, target, int(time.time()), 0)] *)
Definition save_mapping (code tgt : string) (clock : Q) (st : State) : State :=
  {| urls := <[code := mkRow tgt (Py.int clock) 0%Z]> (urls st);
     files := files st |}.

(** [SELECT code, target, created_at, hits FROM urls WHERE code = ?] *)
Definition get_row (code : string) (st : State)
    : option (string * string * Z * Z) :=
  (λ r, (code, target r, created_at r, hits r)) <$> urls st !! code.

Definition seconds_left (clock : Q) (created : Z) : Z :=
  Z.max 0 (DELETE_AFTER_SECONDS - (Py.int clock - created))%Z.

(** [UPDATE urls SET hits = hits + 1 WHERE code = ?] *)
Definition increment_hits (code : string) (st : State) : State :=
  {| urls := alter (λ r, mkRow (target r) (created_at r) (hits r + 1)%Z) code
               (urls st);
     files := files st |}.

(** ** Cleanup daemon *)

(** The [WHERE ? - created_at > ?] clause of the sweep. *)
Definition row_expired (now : Z) (r : Row) : bool :=
  (DELETE_AFTER_SECONDS <? now - created_at r)%Z.

(** [os.path.join(UPLOAD_FOLDER, tgt.replace("/uploads/", "", 1))] *)
Definition artifact_path (tgt : string) : string :=
  Py.os_path_join UPLOAD_FOLDER (Py.replace_first "/uploads/" "" tgt).

(** [os.path.isfile(path)]: the path denotes one of the regular files. *)
Definition isfile `{Platform} (path : string) (fs : gset string) : bool :=
  bool_decide (realpath path ∈ fs).

(** [os.remove(path)]: unlinks the file that [path] denotes, under
    whatever name it was spelt; [None] stands for the raised [OSError]. *)
Definition os_remove `{Platform} (removable : string → bool) (path : string)
    (fs : gset string) : option (gset string) :=
  if isfile path fs && removable path
  then Some (fs ∖ {[realpath path]}) else None.

(** The rows fetched by the sweep's [SELECT]. *)
Definition expired_rows (now : Z) (st : State) : list (string * Row) :=
  map_to_list (filter (λ e, row_expired now e.2 = true) (urls st)).

(** Body of [for code, tgt in expired].  The second component records the
    calls to [os.remove], each with the code of the row that caused it. *)
Definition cleanup_row `{Platform} (removable : string → bool)
    (acc : State * list (string * string)) (e : string * Row)
    : State * list (string * string) :=
  let st := acc.1 in
  let tgt := target e.2 in
  let after_unlink :=
    if Py.startswith tgt "/uploads/" then
      let path := artifact_path tgt in
      if isfile path (files st) then
        (match os_remove removable path (files st) with
         | Some fs => fs
         | None => files st   (* except Exception: pass *)
         end, acc.2 ++ [(e.1, path)])
      else (files st, acc.2)
    else (files st, acc.2) in
  ({| urls := delete e.1 (urls st); files := after_unlink.1 |},
   after_unlink.2).

(** One iteration of the [while True] loop, without the [sleep]. *)
Definition cleanup_iteration `{Platform} (removable : string → bool)
    (clock : Q) (st : State) : State * list (string * string) :=
  foldl (cleanup_row removable) (st, []) (expired_rows (Py.int clock) st).

(** The loop, unrolled over the clock readings of its iterations. *)
Definition cleanup `{Platform} (removable : string → bool) (ticks : list Q)
    (st : State) : State :=
  foldl (λ s t, (cleanup_iteration removable t s).1) st ticks.

(** ** Handlers *)

Record UploadForm := mkForm {
  form_file : option string;   (* filename of the [file] part *)
  form_url : option string;
  form_code : option string
}.

Record Page := mkPage {
  short_url : option string;
  error_message : option string
}.

(** Outcome of the first half of [redirect_code], up to the TTL check. *)
Inductive Lookup :=
| NotFound
| Expired
| Target (code value : string).

Inductive Response :=
| NotFound404                       (* "Not found", 404 *)
| Gone410                           (* "Link expired", 410 *)
| Redirect302 (location : string)
| Attachment (path : string)
| MissingFile404                    (* send_from_directory raised NotFound *)
| Error500.                         (* the UPDATE raised *)

Inductive Metadata :=
| MetadataNotFound
| MetadataJson (tgt : string) (created expires_in nhits : Z).

Global Instance Response_eq_dec : EqDecision Response.
Proof. solve_decision. Defined.

(** [time.time() - created_at > DELETE_AFTER_SECONDS] *)
Definition ttl_exceeded (clock : Q) (created : Z) : bool :=
  negb (Qle_bool (clock - inject_Z created) (inject_Z DELETE_AFTER_SECONDS)).

Section handlers.
Context `{Platform}.

Definition BASE_URL : string :=
  "http://" +:+ LOCAL_IP +:+ ":" +:+ pretty PORT +:+ "/".

Definition make_short (code : string) : string := BASE_URL +:+ code.

(** [t_name] is the clock reading of the file name, [t_save] the one
    taken inside [save_mapping]. *)
Definition upload_file (entropy : nat → nat) (t_name t_save : Q)
    (req : UploadForm) (st : State) : Page * State :=
  let file := form_file req in
  let url := Py.strip (default "" (form_url req)) in
  let code := Py.or_else (Py.strip (default "" (form_code req)))
                (λ _, generate_code entropy 6) in
  let has_file := match file with
                  | Some name => Py.truthy name
                  | None => false
                  end in
  if has_file && Py.truthy url then
    (mkPage None
       (Some "Error: Provide EITHER a URL OR a file, not both."), st)
  else if has_file then
    let filename := pretty (Py.int t_name) +:+ "_"
                    +:+ secure_filename (default "" file) in
    let path := Py.os_path_join UPLOAD_FOLDER filename in
    let saved := {| urls := urls st;
                    files := {[realpath path]} ∪ files st |} in
    (mkPage (Some (make_short code)) None,
     save_mapping code ("/uploads/" +:+ filename) t_save saved)
  else if Py.truthy url then
    (mkPage (Some (make_short code)) None, save_mapping code url t_save st)
  else
    (mkPage None (Some "Error: Please provide a file or a URL."), st).

(** werkzeug's [send_from_directory]: 404 unless the joined path is a
    regular file. *)
Definition send_from_directory (directory path : string) (st : State)
    : Response :=
  match safe_join directory path with
  | None => MissingFile404
  | Some p => if isfile p (files st) then Attachment p
              else MissingFile404
  end.

(** [redirect_code], [row = get_row(code)] up to the TTL check. *)
Definition lookup (clock : Q) (code : string) (st : State) : Lookup :=
  match get_row code st with
  | None => NotFound
  | Some (code, tgt, created, _) =>
      if ttl_exceeded clock created then Expired else Target code tgt
  end.

(** [redirect_code], the [UPDATE] in its own connection; [fault] says
    that SQLite raised, which leaves the table as it was. *)
Definition count_hit (fault : bool) (code : string) (st : State)
    : option State :=
  if fault then None else Some (increment_hits code st).

(** [redirect_code], the two [return]s after the [UPDATE]. *)
Definition deliver (tgt : string) (st : State) : Response :=
  if Py.startswith tgt "/uploads/"
  then send_from_directory UPLOAD_FOLDER
         (Py.replace_first "/uploads/" "" tgt) st
  else Redirect302 tgt.

Definition redirect_code (fault : bool) (clock : Q) (code : string)
    (st : State) : Response * State :=
  match lookup clock code st with
  | NotFound => (NotFound404, st)
  | Expired => (Gone410, st)
  | Target code tgt =>
      match count_hit fault code st with
      | None => (Error500, st)
      | Some st' => (deliver tgt st', st')
      end
  end.

Definition metadata (clock : Q) (code : string) (st : State) : Metadata :=
  match get_row code st with
  | None => MetadataNotFound
  | Some (_, tgt, created, nhits) =>
      MetadataJson tgt created (seconds_left clock created) nhits
  end.

End handlers.

(** A platform on which the examples below are evaluated.  Paths are
    resolved by name, as the operating system does where every directory
    on the way exists and none is a link. *)
Definition sample_platform : Platform := {|
  LOCAL_IP := "192.168.1.20";
  secure_filename := λ name, name;
  safe_join := λ directory path, Some (Py.os_path_join directory path);
  realpath := Py.normpath
|}.

(** ** Code alphabet *)

(** The population of [generate_code]. *)
Definition alphabet : list ascii :=
  String.list_ascii_of_string (Py.ascii_letters +:+ Py.digits).

(** Upper-case letter, lower-case letter or digit, by code point. *)
Definition alnum (ch : ascii) : bool :=
  let n := nat_of_ascii ch in
  (((65 <=? n) && (n <=? 90)) || ((97 <=? n) && (n <=? 122))
   || ((48 <=? n) && (n <=? 57)))%nat.

(** ** Sweep bookkeeping *)

(** A row whose artifact the sweep has to unlink: file-backed, with
    artifact path [p]. *)
Definition file_backed (r : Row) (p : string) : Prop :=
  Py.startswith (target r) "/uploads/" = true ∧ artifact_path (target r) = p.

(** The sweep unlinks file [f] for row [r]: the row is file-backed, its
    artifact path denotes [f], and [os.remove] succeeds on it. *)
Definition unlinks `{Platform} (removable : string → bool) (r : Row)
    (f : string) : Prop :=
  Py.startswith (target r) "/uploads/" = true
  ∧ realpath (artifact_path (target r)) = f
  ∧ removable (artifact_path (target r)) = true.

(** ** Key of an upload *)

(** The code under which [upload_file] files an entry. *)
Definition upload_key (entropy : nat → nat) (req : UploadForm) : string :=
  let stripped := Py.strip (default "" (form_code req)) in
  if decide (stripped = "") then generate_code entropy 6 else stripped.

(** ** The service as a transition system *)

(** The requests and the daemon iteration that touch the table.  ([/qr]
    and [/admin] only read it.) *)
Inductive Request :=
| Upload (entropy : nat → nat) (t_name t_save : Q) (req : UploadForm)
| Visit (fault : bool) (clock : Q) (code : string)
| ReadMetadata (clock : Q) (code : string)
| Sweep (removable : string → bool) (clock : Q).

Definition handle `{Platform} (rq : Request) (st : State) : State :=
  match rq with
  | Upload entropy t_name t_save req =>
      (upload_file entropy t_name t_save req st).2
  | Visit fault clock code => (redirect_code fault clock code st).2
  | ReadMetadata clock code => let _ := metadata clock code st in st
  | Sweep removable clock => (cleanup_iteration removable clock st).1
  end.


(** The lookups that raise the counter of [c]: a visit of [c] that finds
    a row within its TTL and whose [UPDATE] goes through. *)
Definition counted (rq : Request) (c : string) (st : State) : bool :=
  match rq with
  | Visit fault clock code =>
      bool_decide (code = c) && negb fault
      && match lookup clock code st with Target _ _ => true | _ => false end
  | _ => false
  end.


(** ** Concurrent visits *)

(** One request handled by [redirect_code]: the code asked for, the
    clock reading of its TTL check, and whether its [UPDATE] raises. *)
Record Visitor := mkVisitor {
  v_code : string;
  v_clock : Q;
  v_fault : bool
}.

(** Where a handler thread stands between its accesses to the shared
    state. *)
Inductive Progress :=
| Ready                              (* before [get_row] *)
| Resolved (code tgt : string)       (* past the TTL check *)
| Counted (tgt : string)             (* [UPDATE] committed *)
| Done (resp : Response).

(** One atomic step of a handler thread: the [SELECT], the [UPDATE], or
    the file-system check of the delivery. *)
Definition visit_step `{Platform} (v : Visitor) (pg : Progress) (st : State)
    : Progress * State :=
  match pg with
  | Ready =>
      match lookup (v_clock v) (v_code v) st with
      | NotFound => (Done NotFound404, st)
      | Expired => (Done Gone410, st)
      | Target code tgt => (Resolved code tgt, st)
      end
  | Resolved code tgt =>
      match count_hit (v_fault v) code st with
      | None => (Done Error500, st)
      | Some st' => (Counted tgt, st')
      end
  | Counted tgt => (Done (deliver tgt st), st)
  | Done resp => (Done resp, st)
  end.

(** The scheduler picks thread [i] for its next step. *)
Definition schedule_step `{Platform} (i : nat)
    (cfg : list (Visitor * Progress) * State)
    : list (Visitor * Progress) * State :=
  match cfg.1 !! i with
  | None => cfg
  | Some vp =>
      let next := visit_step vp.1 vp.2 cfg.2 in
      (<[i := (vp.1, next.1)]> cfg.1, next.2)
  end.

Definition run `{Platform} (sched : list nat)
    (cfg : list (Visitor * Progress) * State)
    : list (Visitor * Progress) * State :=
  foldl (λ cfg i, schedule_step i cfg) cfg sched.

Definition spawn (vs : list Visitor) : list (Visitor * Progress) :=
  (λ v, (v, Ready)) <$> vs.

Definition finished (vp : Visitor * Progress) : Prop :=
  match vp.2 with Done _ => True | _ => False end.

(** The visits of [c] that succeed against a row created at [created]:
    within the TTL at their reading, and with an [UPDATE] that goes
    through. *)
Definition succeeds (c : string) (created : Z) (v : Visitor) : bool :=
  bool_decide (v_code v = c)
  && negb (ttl_exceeded (v_clock v) created) && negb (v_fault v).

(** A thread whose [UPDATE] of [c] is committed. *)
Definition past_update (c : string) (vp : Visitor * Progress) : bool :=
  bool_decide (v_code vp.1 = c)
  && match vp.2 with
     | Counted _ => true
     | Done resp =>
         match resp with
         | Redirect302 _ | Attachment _ | MissingFile404 => true
         | _ => false
         end
     | _ => false
     end.

Definition tally (c : string) (pool : list (Visitor * Progress)) : nat :=
  length (filter (λ vp, past_update c vp = true) pool).

(** Steps a thread still has to take. *)
Definition remaining (pg : Progress) : nat :=
  match pg with Ready => 3 | Resolved _ _ => 2 | Counted _ => 1 | Done _ => 0 end.

(** What holds of a thread in every configuration reached from a table
    in which the row of [c] was created at [created]. *)
Definition thread_ok (c : string) (created : Z) (vp : Visitor * Progress)
    : Prop :=
  match vp.2 with
  | Ready => True
  | Resolved code _ =>
      code = v_code vp.1
      ∧ (v_code vp.1 = c → ttl_exceeded (v_clock vp.1) created = false)
  | Counted _ | Done _ => past_update c vp = succeeds c created vp.1
  end.

Definition pool_inv (c : string) (r : Row)
    (cfg : list (Visitor * Progress) * State) : Prop :=
  Forall (thread_ok c (created_at r)) cfg.1
  ∧ urls cfg.2 !! c
    = Some (mkRow (target r) (created_at r)
              (hits r + Z.of_nat (tally c cfg.1))).

(** ** Example states *)

(** The first scenario of the specification: code "abc123" created at
    time 0. *)
Definition scenario_state : State :=
  save_mapping "abc123" "https://example.com" 0 init_db.

(** The second scenario of the specification: a file-backed entry under
    code "x", swept 700 seconds after its creation. *)
Definition upload_state : State :=
  {| urls := {[ "x" := mkRow "/uploads/1_a.png" 1 0 ]};
     files := {[ "static/uploads/1_a.png" ]} |}.

(** A row whose target climbs out of the upload folder, with the file
    it reaches. *)
Definition dotdot_state : State :=
  {| urls := {[ "y" := mkRow "/uploads/../logo.png" 1 0 ]};
     files := {[ "static/logo.png" ]} |}.


(** ** Further handlers and helpers of the file *)

(** [s.split(sep)[0]]: what precedes the first separator. *)
Fixpoint split_head (sep : ascii) (s : string) : string :=
  match s with
  | EmptyString => EmptyString
  | String c s' => if Ascii.eqb c sep then EmptyString
                   else String c (split_head sep s')
  end.

Fixpoint has_char (sep : ascii) (s : string) : bool :=
  match s with
  | EmptyString => false
  | String c s' => Ascii.eqb c sep || has_char sep s'
  end.

(** [s.split(sep)[-1]]: what follows the last separator. *)
Fixpoint last_segment (sep : ascii) (s : string) : string :=
  match s with
  | EmptyString => EmptyString
  | String c s' =>
      if has_char sep s' then last_segment sep s'
      else if Ascii.eqb c sep then s' else s
  end.

(** [s.rstrip(ch)] for a single character [ch]. *)
Fixpoint rstrip_char (ch : ascii) (s : string) : string :=
  match s with
  | EmptyString => EmptyString
  | String c s' =>
      match rstrip_char ch s' with
      | EmptyString => if Ascii.eqb c ch then EmptyString
                       else String c EmptyString
      | rest => String c rest
      end
  end.

(** [HOSTNAME = socket.gethostname().split(".")[0]] *)
Definition HOSTNAME (gethostname : string) : string :=
  split_head "." gethostname.

(** The [before_request] hook: [Some location] is the 301 it answers,
    [None] lets the request through.  [request_host] is the [Host]
    header, [full_path] the path with its query string. *)
Definition force_ip_host `{Platform} (gethostname request_host full_path : string)
    : option string :=
  let host := split_head ":" request_host in
  if negb (String.eqb host LOCAL_IP)
     && Py.startswith host (HOSTNAME gethostname)
  then Some (rstrip_char "/" BASE_URL +:+ full_path)
  else None.

Inductive QrResponse :=
| QrNotFound                       (* "Not found", 404 *)
| QrImage (encoded : string).      (* PNG of [qrcode.make(encoded)] *)

Definition qr_code `{Platform} (code : string) (st : State) : QrResponse :=
  match get_row code st with
  | None => QrNotFound
  | Some _ => QrImage (make_short code)
  end.




(** [ORDER BY created_at DESC] *)
Definition newer_first (a b : string * Row) : Prop :=
  (created_at b.2 ≤ created_at a.2)%Z.

Global Instance newer_first_dec : RelDecision newer_first.
Proof. intros a b. unfold newer_first. apply _. Defined.


(** Whether the form carries a file with a name. *)
Definition has_file (req : UploadForm) : bool :=
  match form_file req with Some name => Py.truthy name | None => false end.

(** The stripped URL field of the form. *)
Definition url_field (req : UploadForm) : string :=
  Py.strip (default "" (form_url req)).

(** The name under which an uploaded file is stored. *)
Definition stored_name `{Platform} (t_name : Q) (req : UploadForm) : string :=
  pretty (Py.int t_name) +:+ "_" +:+ secure_filename (default "" (form_file req)).

(** A sequence of requests and daemon iterations, handled in order. *)
Definition handle_all `{Platform} (rqs : list Request) (st : State) : State :=
  foldl (λ s rq, handle rq s) st rqs.

Definition is_upload (rq : Request) : bool :=
  match rq with Upload _ _ _ _ => true | _ => false end.

Definition visits (c : string) (rq : Request) : bool :=
  match rq with Visit _ _ code => bool_decide (code = c) | _ => false end.

(** * Properties *)

(** ** The clock *)

Section clock.
Local Open Scope Q_scope.

(** Truncation stays within one second of the reading, on both sides. *)
Lemma int_within_one (x : Q) :
  x - 1 < inject_Z (Py.int x) ∧ inject_Z (Py.int x) < x + 1.
Proof.
  destruct x as [n d]. unfold Py.int, Qlt, Qminus, Qplus, Qopp, inject_Z.
  cbn [Qnum Qden].
  pose proof (Z.quot_rem' n (Z.pos d)) as Hqr.
  assert (Hd : (0 < Z.pos d)%Z) by lia.
  pose proof (Z.rem_bound_abs n (Z.pos d) ltac:(lia)) as Hb.
  rewrite (Z.abs_eq (Z.pos d)) in Hb by lia.
  split; rewrite ?Pos2Z.inj_mul; nia.
Qed.

Lemma ttl_exceeded_true (clock : Q) (created : Z) :
  ttl_exceeded clock created = true ↔
  inject_Z DELETE_AFTER_SECONDS < clock - inject_Z created.
Proof.
  unfold ttl_exceeded. rewrite negb_true_iff.
  split.
  - intros Hb. apply Qnot_le_lt. intros Hle.
    apply Qle_bool_iff in Hle. congruence.
  - intros Hlt. apply not_true_is_false. intros Hb.
    apply Qle_bool_iff in Hb. exact (Qlt_not_le _ _ Hlt Hb).
Qed.

Lemma ttl_exceeded_false (clock : Q) (created : Z) :
  ttl_exceeded clock created = false ↔
  clock - inject_Z created <= inject_Z DELETE_AFTER_SECONDS.
Proof.
  unfold ttl_exceeded. rewrite negb_false_iff. apply Qle_bool_iff.
Qed.

(** An entry stamped at reading [t0] is live one second before the TTL
    has run and expired one second after. *)
Lemma ttl_boundary (t0 : Q) :
  ttl_exceeded (t0 + inject_Z DELETE_AFTER_SECONDS - 1) (Py.int t0) = false
  ∧ ttl_exceeded (t0 + inject_Z DELETE_AFTER_SECONDS + 1) (Py.int t0) = true.
Proof.
  destruct (int_within_one t0) as [Hlo Hhi]. split.
  - apply ttl_exceeded_false. lra.
  - apply ttl_exceeded_true. lra.
Qed.

End clock.

(** ** The mapping store *)

Section store.
Implicit Types (st : State) (code tgt : string) (r : Row).

Lemma get_row_Some st code r :
  urls st !! code = Some r →
  get_row code st = Some (code, target r, created_at r, hits r).
Proof. intros Hr. unfold get_row. by rewrite Hr. Qed.

Lemma get_row_None st code :
  get_row code st = None ↔ urls st !! code = None.
Proof. unfold get_row. apply fmap_None. Qed.

Lemma save_mapping_lookup st code tgt clock :
  urls (save_mapping code tgt clock st) !! code
  = Some (mkRow tgt (Py.int clock) 0).
Proof. apply lookup_insert_eq. Qed.


Lemma increment_hits_lookup st code :
  urls (increment_hits code st) !! code
  = (λ r, mkRow (target r) (created_at r) (hits r + 1)) <$> urls st !! code.
Proof. cbn. by rewrite lookup_alter_eq. Qed.

Lemma increment_hits_lookup_ne st code code' :
  code ≠ code' →
  urls (increment_hits code st) !! code' = urls st !! code'.
Proof. intros Hne. cbn. by rewrite lookup_alter_ne. Qed.

Lemma increment_hits_files st code :
  files (increment_hits code st) = files st.
Proof. done. Qed.

End store.

(** ** Upsert *)

Example upsert_scenario :
  get_row "abc123"
    (save_mapping "abc123" "https://example.org" 30
       (increment_hits "abc123"
          (save_mapping "abc123" "https://example.com" 0 init_db)))
  = Some ("abc123", "https://example.org", 30%Z, 0%Z).
Proof. reflexivity. Qed.

(** C1. After [save_mapping c t1] and then [save_mapping c t2], whatever
    number [n] of hits was counted in between, [get_row c] returns the
    row of [c] with target [t2], creation time the (truncated) clock
    reading of the second call, and a hit counter of 0. *)
Theorem save_mapping_twice_resets (st : State) (c t1 t2 : string)
    (clock1 clock2 : Q) (n : nat) :
  get_row c
    (save_mapping c t2 clock2
       (Nat.iter n (increment_hits c) (save_mapping c t1 clock1 st)))
  = Some (c, t2, Py.int clock2, 0%Z).
Proof.
  apply get_row_Some with (r := mkRow t2 (Py.int clock2) 0).
  apply save_mapping_lookup.
Qed.

(** ** Reading a row *)

(** C5. [get_row] returns the four fields of the row stored under the
    code at any clock reading, expired or not, and nothing exactly when
    no row is stored; [metadata] reports the same fields and answers
    "not found" only in the absence of a row. *)
Theorem get_row_ignores_ttl (st : State) (code : string) (clock : Q) :
  (∀ r, urls st !! code = Some r →
        get_row code st = Some (code, target r, created_at r, hits r)
        ∧ metadata clock code st
          = MetadataJson (target r) (created_at r)
              (seconds_left clock (created_at r)) (hits r))
  ∧ (get_row code st = None ↔ urls st !! code = None)
  ∧ (metadata clock code st = MetadataNotFound ↔ urls st !! code = None).
Proof.
  split; [|split].
  - intros r Hr. unfold metadata. by rewrite (get_row_Some _ _ _ Hr).
  - apply get_row_None.
  - unfold metadata. rewrite <- get_row_None.
    destruct (get_row code st) as [[[[? ?] ?] ?]|]; split; done.
Qed.

(** An expired row, one second past the TTL, is still returned in full. *)
Lemma get_row_ignores_ttl_witness :
  let st := save_mapping "abc123" "https://example.com" 0 init_db in
  ttl_exceeded 601 0 = true
  ∧ get_row "abc123" st = Some ("abc123", "https://example.com", 0%Z, 0%Z)
  ∧ metadata 601 "abc123" st = MetadataJson "https://example.com" 0 0 0.
Proof.
  intros st. split; [reflexivity|].
  apply (proj1 (get_row_ignores_ttl st "abc123" 601)
           (mkRow "https://example.com" 0 0)).
  reflexivity.
Defined.

(** ** Code generator *)

Lemma alphabet_alnum (ch : ascii) : bool_decide (ch ∈ alphabet) = alnum ch.
Proof. destruct ch as [[] [] [] [] [] [] [] []]; vm_compute; reflexivity. Qed.

Lemma random_choices_length entropy population k :
  length (Py.random_choices entropy population k) = Z.to_nat k.
Proof. unfold Py.random_choices. by rewrite length_fmap, length_seq. Qed.

Lemma random_choices_elem entropy (population : list ascii) k ch :
  population ≠ [] →
  ch ∈ Py.random_choices entropy population k → ch ∈ population.
Proof.
  intros Hne. unfold Py.random_choices.
  intros (i & -> & _)%list_elem_of_fmap.
  apply list_elem_of_In, nth_In, Nat.mod_upper_bound.
  destruct population; [done | cbn; lia].
Qed.

Lemma join_chars_length l : String.length (Py.join_chars l) = length l.
Proof.
  unfold Py.join_chars. induction l as [|a l IH]; cbn; [done | by f_equal].
Qed.

(** C6. [generate_code] returns a string with as many characters as the
    requested length (none when the length is not positive; six by
    default), and every character is one of the 62 distinct symbols of
    the alphabet, which are exactly the upper-case letters, the
    lower-case letters and the digits. *)
Theorem generate_code_length_alphabet (entropy : nat → nat) (len : Z) :
  String.length (generate_code entropy len) = Z.to_nat len
  ∧ Forall (λ ch, ch ∈ alphabet ∧ alnum ch = true)
      (String.list_ascii_of_string (generate_code entropy len))
  ∧ String.length (generate_code entropy 6) = 6
  ∧ length alphabet = 62 ∧ NoDup alphabet
  ∧ (∀ ch, ch ∈ alphabet ↔ alnum ch = true).
Proof.
  assert (Hall : ∀ ch, ch ∈ alphabet ↔ alnum ch = true).
  { intros ch. rewrite <- alphabet_alnum. symmetry. apply bool_decide_eq_true. }
  assert (Hlen : ∀ k, String.length (generate_code entropy k) = Z.to_nat k).
  { intros k. unfold generate_code.
    by rewrite join_chars_length, random_choices_length. }
  split; [apply Hlen|]. split; [|split; [apply Hlen|]].
  - unfold generate_code, Py.join_chars.
    rewrite String.list_ascii_of_string_of_list_ascii.
    apply Forall_forall. intros ch Hch.
    apply random_choices_elem in Hch; [|done].
    split; [exact Hch | by apply Hall].
  - split; [reflexivity|]. split; [|exact Hall].
    apply (bool_decide_unpack (NoDup alphabet)). vm_compute. exact I.
Qed.

(** ** Lookup path *)

Section lookup_path.
Context `{Platform}.
Implicit Types (st : State) (code tgt : string) (r : Row) (clock : Q).

Lemma lookup_absent st code clock :
  urls st !! code = None → lookup clock code st = NotFound.
Proof. intros Hr. unfold lookup, get_row. by rewrite Hr. Qed.

Lemma lookup_present st code clock r :
  urls st !! code = Some r →
  lookup clock code st
  = if ttl_exceeded clock (created_at r) then Expired
    else Target code (target r).
Proof. intros Hr. unfold lookup. by rewrite (get_row_Some _ _ _ Hr). Qed.

Lemma redirect_code_live st code clock r :
  urls st !! code = Some r →
  ttl_exceeded clock (created_at r) = false →
  redirect_code false clock code st
  = (deliver (target r) (increment_hits code st), increment_hits code st)
  ∧ redirect_code true clock code st = (Error500, st).
Proof.
  intros Hr Hlive. unfold redirect_code.
  by rewrite (lookup_present _ _ _ _ Hr), Hlive.
Qed.

Lemma redirect_code_expired st code clock r fault :
  urls st !! code = Some r →
  ttl_exceeded clock (created_at r) = true →
  redirect_code fault clock code st = (Gone410, st).
Proof.
  intros Hr Hexp. unfold redirect_code.
  by rewrite (lookup_present _ _ _ _ Hr), Hexp.
Qed.

Lemma redirect_code_absent st code clock fault :
  urls st !! code = None →
  redirect_code fault clock code st = (NotFound404, st).
Proof.
  intros Hr. unfold redirect_code. by rewrite (lookup_absent _ _ _ Hr).
Qed.

(** C2. The lookup of a code is [NotFound] when no row is stored,
    [Expired] when a row is stored and the clock reading minus its
    creation time exceeds the TTL, and [Target] with the row's target
    otherwise; [redirect_code] answers 404, 410 and, when the [UPDATE]
    goes through, the delivery of the target, in that order.  A row
    that is past its TTL is never resolved to its target although it
    is still stored: an entry written at reading [t0] resolves at
    [t0 + TTL - 1] and is reported expired at [t0 + TTL + 1] with no
    deletion in between. *)
Theorem lookup_tri_state st code clock fault :
  (urls st !! code = None →
     lookup clock code st = NotFound
     ∧ redirect_code fault clock code st = (NotFound404, st))
  ∧ (∀ r, urls st !! code = Some r →
       (inject_Z DELETE_AFTER_SECONDS < clock - inject_Z (created_at r))%Q →
       lookup clock code st = Expired
       ∧ redirect_code fault clock code st = (Gone410, st))
  ∧ (∀ r, urls st !! code = Some r →
       (clock - inject_Z (created_at r) <= inject_Z DELETE_AFTER_SECONDS)%Q →
       lookup clock code st = Target code (target r)
       ∧ redirect_code false clock code st
         = (deliver (target r) (increment_hits code st),
            increment_hits code st))
  ∧ (∀ tgt t0,
       let st' := save_mapping code tgt t0 st in
       lookup (t0 + inject_Z DELETE_AFTER_SECONDS - 1) code st'
       = Target code tgt
       ∧ lookup (t0 + inject_Z DELETE_AFTER_SECONDS + 1) code st' = Expired
       ∧ (redirect_code fault (t0 + inject_Z DELETE_AFTER_SECONDS + 1)
            code st').2 = st'
       ∧ is_Some (urls st' !! code)).
Proof.
  split; [|split; [|split]].
  - intros Hr. split; [by apply lookup_absent | by apply redirect_code_absent].
  - intros r Hr Hexp%ttl_exceeded_true. split.
    + by rewrite (lookup_present _ _ _ _ Hr), Hexp.
    + by eapply redirect_code_expired.
  - intros r Hr Hlive%ttl_exceeded_false. split.
    + by rewrite (lookup_present _ _ _ _ Hr), Hlive.
    + by apply redirect_code_live.
  - intros tgt t0 st'.
    pose proof (save_mapping_lookup st code tgt t0) as Hr. fold st' in Hr.
    destruct (ttl_boundary t0) as [Hlive Hexp].
    repeat split.
    + by rewrite (lookup_present _ _ _ _ Hr); cbn [created_at target]; rewrite Hlive.
    + by rewrite (lookup_present _ _ _ _ Hr); cbn [created_at]; rewrite Hexp.
    + by rewrite (redirect_code_expired _ _ _ _ fault Hr Hexp).
    + by rewrite Hr.
Qed.

(** C7, as the code has it.  On a lookup that resolves to a target the
    hit counter of the row is raised by one before the target is
    delivered, and the delivery is computed on the updated state; when
    the increment raises, the handler ends with that error, no target
    is returned and the table is left as it was. *)
Theorem redirect_counts_then_delivers st code clock r :
  urls st !! code = Some r →
  ttl_exceeded clock (created_at r) = false →
  let st' := increment_hits code st in
  lookup clock code st = Target code (target r)
  ∧ redirect_code false clock code st = (deliver (target r) st', st')
  ∧ urls st' !! code = Some (mkRow (target r) (created_at r) (hits r + 1))
  ∧ redirect_code true clock code st = (Error500, st).
Proof.
  intros Hr Hlive st'.
  destruct (redirect_code_live _ _ _ _ Hr Hlive) as [Hok Hfault].
  split; [by rewrite (lookup_present _ _ _ _ Hr), Hlive|].
  split; [exact Hok|]. split; [|exact Hfault].
  unfold st'. by rewrite increment_hits_lookup, Hr.
Qed.

End lookup_path.

Lemma lookup_tri_state_witness :
  (lookup 599 "abc123" scenario_state = Target "abc123" "https://example.com"
   ∧ @redirect_code sample_platform false 599 "abc123" scenario_state
     = (Redirect302 "https://example.com",
        increment_hits "abc123" scenario_state))
  ∧ (lookup 601 "abc123" scenario_state = Expired
     ∧ @redirect_code sample_platform false 601 "abc123" scenario_state
       = (Gone410, scenario_state))
  ∧ (lookup 599 "nobody" scenario_state = NotFound
     ∧ @redirect_code sample_platform false 599 "nobody" scenario_state
       = (NotFound404, scenario_state)).
Proof.
  split; [|split].
  - apply (proj1 (proj2 (proj2
      (@lookup_tri_state sample_platform scenario_state "abc123" 599 false)))
      (mkRow "https://example.com" 0 0)); [reflexivity|].
    unfold Qle, DELETE_AFTER_SECONDS; simpl; lia.
  - apply (proj1 (proj2
      (@lookup_tri_state sample_platform scenario_state "abc123" 601 false))
      (mkRow "https://example.com" 0 0)); [reflexivity|].
    unfold Qlt, DELETE_AFTER_SECONDS; simpl; lia.
  - apply (proj1
      (@lookup_tri_state sample_platform scenario_state "nobody" 599 false)).
    reflexivity.
Defined.

Lemma redirect_counts_then_delivers_witness :
  @redirect_code sample_platform false 599 "abc123" scenario_state
  = (Redirect302 "https://example.com", increment_hits "abc123" scenario_state)
  ∧ @redirect_code sample_platform true 599 "abc123" scenario_state
    = (Error500, scenario_state).
Proof.
  destruct (@redirect_counts_then_delivers sample_platform scenario_state
              "abc123" 599 (mkRow "https://example.com" 0 0)
              ltac:(reflexivity) ltac:(reflexivity)) as (_ & Hok & _ & Hfault).
  split; [exact Hok | exact Hfault].
Defined.

(** C7 as the specification words it fails: with the increment raising,
    a live code is not redirected. *)
Lemma increment_failure_blocks_redirect :
  lookup 599 "abc123" scenario_state = Target "abc123" "https://example.com"
  ∧ (@redirect_code sample_platform true 599 "abc123" scenario_state).1
    = Error500
  ∧ (@redirect_code sample_platform true 599 "abc123" scenario_state).1
    ≠ Redirect302 "https://example.com".
Proof. split; [reflexivity|]. split; [reflexivity | discriminate]. Qed.

(** ** Reaper sweep *)

Section sweep.
Context `{Platform}.
Variable removable : string → bool.
Implicit Types (st : State) (e : string * Row) (l : list (string * Row))
  (acc : State * list (string * string)) (c p f : string) (r : Row).

Lemma row_expired_true now r :
  row_expired now r = true ↔ (DELETE_AFTER_SECONDS < now - created_at r)%Z.
Proof. apply Z.ltb_lt. Qed.

Lemma unlinks_iff r f :
  unlinks removable r f ↔
  ∃ p, file_backed r p ∧ realpath p = f ∧ removable p = true.
Proof.
  unfold unlinks, file_backed. split.
  - intros (Hs & Hf & Hrm). by exists (artifact_path (target r)).
  - by intros (p & [Hs <-] & Hf & Hrm).
Qed.

(** *** One row *)

Lemma cleanup_row_urls acc e :
  urls (cleanup_row removable acc e).1 = delete e.1 (urls acc.1).
Proof. done. Qed.

Lemma cleanup_row_files acc e f :
  f ∈ files (cleanup_row removable acc e).1 ↔
  f ∈ files acc.1 ∧ ¬ unlinks removable e.2 f.
Proof.
  unfold cleanup_row, unlinks, os_remove, isfile. cbn [fst snd files].
  destruct (Py.startswith (target e.2) "/uploads/"); cbn [fst].
  2: { split; [intros Hf; split; [done | by intros (? & _)]
              | by intros [? _]]. }
  case_bool_decide as Hin; cbn [fst andb].
  2: { split; [|by intros [? _]]. intros Hf. split; [done|].
       intros (_ & <- & _). done. }
  destruct (removable (artifact_path (target e.2))) eqn:Hrm; cbn [fst].
  - rewrite elem_of_difference, elem_of_singleton. split.
    + intros [Hf Hne]. split; [done|]. intros (_ & Heq & _). done.
    + intros [Hf Hno]. split; [done|]. intros ->. by apply Hno.
  - split; [|by intros [? _]]. intros Hf. split; [done|].
    intros (_ & _ & ?). congruence.
Qed.

Lemma cleanup_row_log acc e c p :
  (c, p) ∈ (cleanup_row removable acc e).2 ↔
  (c, p) ∈ acc.2
  ∨ (c = e.1 ∧ file_backed e.2 p ∧ realpath p ∈ files acc.1).
Proof.
  unfold cleanup_row, file_backed, isfile. cbn [fst snd].
  destruct (Py.startswith (target e.2) "/uploads/"); cbn [snd].
  2: { split; [by left | by intros [?|(_ & [? _] & _)]]. }
  case_bool_decide as Hin; cbn [snd].
  - rewrite elem_of_app, list_elem_of_singleton. split.
    + intros [?|[= -> ->]]; [by left | by right].
    + intros [?|(-> & [_ <-] & _)]; [by left | by right].
  - split; [by left|]. intros [?|(_ & [_ <-] & ?)]; done.
Qed.

(** *** The loop over the fetched rows *)

Lemma sweep_urls l acc c :
  urls (foldl (cleanup_row removable) acc l).1 !! c
  = if bool_decide (c ∈ l.*1) then None else urls acc.1 !! c.
Proof.
  revert acc. induction l as [|e l IH]; intros acc; [done|].
  cbn [foldl]. rewrite IH, cleanup_row_urls, fmap_cons.
  destruct (decide (c = e.1)) as [->|Hne].
  - rewrite lookup_delete_eq.
    rewrite (bool_decide_eq_true_2 (e.1 ∈ e.1 :: l.*1)) by left.
    by case_bool_decide.
  - rewrite lookup_delete_ne by done.
    rewrite (bool_decide_ext (c ∈ e.1 :: l.*1) (c ∈ l.*1)); [done|].
    rewrite elem_of_cons. split; [by intros [?|?] | by right].
Qed.

Lemma sweep_files l acc f :
  f ∈ files (foldl (cleanup_row removable) acc l).1 ↔
  f ∈ files acc.1 ∧ ¬ (∃ e, e ∈ l ∧ unlinks removable e.2 f).
Proof.
  revert acc. induction l as [|e l IH]; intros acc.
  - cbn. split; [|by intros [? _]]. intros Hf. split; [done|].
    intros (e & He & _). by apply elem_of_nil in He.
  - cbn [foldl]. rewrite IH, cleanup_row_files. split.
    + intros ((Hf & Hhd) & Htl). split; [done|].
      intros (e' & [->|He']%elem_of_cons & Hun).
      * by apply Hhd.
      * apply Htl. by exists e'.
    + intros (Hf & Hno). split; [split; [done|]|].
      * intros Hun. apply Hno. exists e. split; [left | done].
      * intros (e' & He' & Hun). apply Hno.
        exists e'. split; [by right | done].
Qed.

Lemma sweep_log_mono l acc x :
  x ∈ acc.2 → x ∈ (foldl (cleanup_row removable) acc l).2.
Proof.
  revert acc. induction l as [|e l IH]; intros acc Hx; [done|].
  cbn [foldl]. apply IH. destruct x as [c p].
  apply cleanup_row_log. by left.
Qed.

Lemma sweep_files_subseteq l acc :
  files (foldl (cleanup_row removable) acc l).1 ⊆ files acc.1.
Proof. intros f Hf. by apply sweep_files in Hf as [? _]. Qed.

Lemma sweep_log_sound l acc c p :
  (c, p) ∈ (foldl (cleanup_row removable) acc l).2 →
  (c, p) ∈ acc.2
  ∨ ∃ r, (c, r) ∈ l ∧ file_backed r p ∧ realpath p ∈ files acc.1.
Proof.
  revert acc. induction l as [|e l IH]; intros acc; [by left|].
  cbn [foldl]. intros [Hold|(r & Hr & Hfb & Hp)]%IH.
  - apply cleanup_row_log in Hold as [?|(-> & Hfb & Hp)]; [by left|].
    right. exists e.2. split; [destruct e; left | done].
  - right. exists r. split; [by right|]. split; [done|].
    by apply cleanup_row_files in Hp as [? _].
Qed.

Lemma sweep_log_complete l acc c r p :
  (c, r) ∈ l → file_backed r p → realpath p ∈ files acc.1 →
  ∃ c' p', (c', p') ∈ (foldl (cleanup_row removable) acc l).2
           ∧ realpath p' = realpath p.
Proof.
  revert acc. induction l as [|e l IH]; intros acc Hin Hfb Hp.
  { by apply elem_of_nil in Hin. }
  cbn [foldl].
  assert (Hstep : (e.1 = c ∧ e.2 = r) ∨ (c, r) ∈ l).
  { apply elem_of_cons in Hin as [<-|?]; [by left | by right]. }
  destruct Hstep as [[Hc Hr]|Hin'].
  - exists c, p. split; [|done].
    apply sweep_log_mono, cleanup_row_log. right. by rewrite Hc, Hr.
  - destruct (decide (realpath p ∈ files (cleanup_row removable acc e).1))
      as [Hp'|Hp'].
    + by eapply IH.
    + rewrite cleanup_row_files in Hp'.
      destruct (decide (unlinks removable e.2 (realpath p))) as [Hun|Hn].
      * destruct Hun as (Hs & Hsame & _).
        exists e.1, (artifact_path (target e.2)). split; [|done].
        apply sweep_log_mono, cleanup_row_log. right.
        split; [done|]. split; [done|]. by rewrite Hsame.
      * exfalso. by apply Hp'.
Qed.

End sweep.

Section sweep_iteration.
Context `{Platform}.
Implicit Types (st : State) (c p f : string) (r : Row).

Lemma elem_of_expired_rows now st c r :
  (c, r) ∈ expired_rows now st ↔
  urls st !! c = Some r ∧ row_expired now r = true.
Proof.
  unfold expired_rows.
  by rewrite elem_of_map_to_list, map_lookup_filter_Some.
Qed.

Lemma elem_of_expired_codes now st c :
  c ∈ (expired_rows now st).*1 ↔
  ∃ r, urls st !! c = Some r ∧ row_expired now r = true.
Proof.
  rewrite list_elem_of_fmap. split.
  - intros ([c' r] & -> & Hin). exists r. by apply elem_of_expired_rows.
  - intros (r & Hr). exists (c, r). split; [done|].
    by apply elem_of_expired_rows.
Qed.

(** The table after a sweep: the expired rows are gone, the others are
    as they were. *)
Lemma cleanup_iteration_urls removable clock st c :
  urls (cleanup_iteration removable clock st).1 !! c
  = r ← urls st !! c; if row_expired (Py.int clock) r then None else Some r.
Proof.
  unfold cleanup_iteration. rewrite sweep_urls. cbn [fst].
  case_bool_decide as Hc.
  - apply elem_of_expired_codes in Hc as (r & -> & Hexp). cbn.
    by rewrite Hexp.
  - destruct (urls st !! c) as [r|] eqn:Hr; [cbn|done].
    destruct (row_expired (Py.int clock) r) eqn:Hexp; [|done].
    exfalso. apply Hc, elem_of_expired_codes. by exists r.
Qed.

(** The files after a sweep: gone are exactly the files that an expired
    file-backed row denotes and whose removal succeeded. *)
Lemma cleanup_iteration_files removable clock st f :
  f ∈ files (cleanup_iteration removable clock st).1 ↔
  f ∈ files st
  ∧ ¬ (∃ c r, urls st !! c = Some r
              ∧ row_expired (Py.int clock) r = true
              ∧ unlinks removable r f).
Proof.
  unfold cleanup_iteration. rewrite sweep_files. cbn [fst]. split.
  - intros [Hf Hno]. split; [done|]. intros (c & r & Hr & Hexp & Hun).
    apply Hno. exists (c, r). split; [by apply elem_of_expired_rows | done].
  - intros [Hf Hno]. split; [done|].
    intros ([c r] & [Hr Hexp]%elem_of_expired_rows & Hun).
    apply Hno. by exists c, r.
Qed.

Lemma cleanup_iteration_no_expired removable clock st :
  expired_rows (Py.int clock) (cleanup_iteration removable clock st).1 = [].
Proof.
  unfold expired_rows. apply map_to_list_empty_iff, map_empty. intros c.
  apply map_lookup_filter_None. right. intros r Hr. cbn [snd].
  rewrite cleanup_iteration_urls in Hr.
  destruct (urls st !! c) as [r0|]; [cbn in Hr|done].
  destruct (row_expired (Py.int clock) r0) eqn:Hexp; [done|].
  injection Hr as <-. by rewrite Hexp.
Qed.

Lemma startswith_app_inv (s pre : string) :
  Py.startswith s pre = true → ∃ rest, s = pre +:+ rest.
Proof.
  unfold Py.startswith. revert s. induction pre as [|a pre IH]; intros s Hs.
  - by exists s.
  - destruct s as [|b s]; [done|].
    change (String.prefix (String a pre) (String b s))
      with (if ascii_dec a b then String.prefix pre s else false) in Hs.
    destruct (ascii_dec a b) as [->|]; [|done].
    destruct (IH s Hs) as [rest ->]. by exists rest.
Qed.

Lemma startswith_app (pre rest : string) :
  Py.startswith (pre +:+ rest) pre = true.
Proof.
  unfold Py.startswith. induction pre as [|a pre IH]; [by destruct rest|].
  change (String.prefix (String a pre) (String a (pre +:+ rest)) = true).
  cbn [String.prefix]. by destruct (ascii_dec a a).
Qed.

Lemma substring_whole (s : string) :
  String.substring 0 (String.length s) s = s.
Proof. induction s as [|a s IH]; simpl; [done | by rewrite IH]. Qed.

Lemma substring_after (a b : string) :
  String.substring (String.length a)
    (String.length (a +:+ b) - String.length a) (a +:+ b) = b.
Proof.
  induction a as [|ch a IH]; simpl.
  - rewrite Nat.sub_0_r. apply substring_whole.
  - exact IH.
Qed.

Lemma replace_first_head old new s :
  Py.replace_first old new (old +:+ s) = new +:+ s.
Proof.
  assert (Hunfold : ∀ t, Py.replace_first old new t
    = if String.prefix old t
      then new +:+ String.substring (String.length old)
                     (String.length t - String.length old) t
      else match t with
           | EmptyString => EmptyString
           | String c t' => String c (Py.replace_first old new t')
           end) by (by intros []).
  rewrite Hunfold. pose proof (startswith_app old s) as Hpre.
  unfold Py.startswith in Hpre. by rewrite Hpre, substring_after.
Qed.

(** The path the sweep derives from a file target. *)
Lemma file_backed_path r p :
  file_backed r p ↔
  ∃ rest, target r = "/uploads/" +:+ rest
          ∧ p = if Py.startswith rest "/" then rest
                else "static/uploads/" +:+ rest.
Proof.
  unfold file_backed, artifact_path. split.
  - intros [[rest Htgt]%startswith_app_inv <-]. exists rest.
    split; [done|]. rewrite Htgt, (replace_first_head "/uploads/" "").
    change ("" +:+ rest) with rest.
    unfold Py.os_path_join. by destruct (Py.startswith rest "/").
  - intros (rest & -> & ->). split; [apply startswith_app|].
    rewrite (replace_first_head "/uploads/" "").
    change ("" +:+ rest) with rest.
    unfold Py.os_path_join. by destruct (Py.startswith rest "/").
Qed.

(** C3. One sweep at clock reading [clock] deletes from the table
    exactly the rows with [int clock - created_at > TTL] and leaves
    every other row as it was.  The artifact of a row with target
    ["/uploads/" + rest] is the file at [static/uploads/rest] (at [rest]
    itself when [rest] is absolute).  [os.remove] is called only for
    expired rows with such a target, on the path of their artifact, and
    only when that path denotes a file; for an expired file-backed row
    whose artifact exists a call is made on a path of that file, after
    which the file is gone, under every spelling of its path, if the
    removal succeeds.  Whether or not the removal succeeds, and whether
    or not the artifact exists, the row is deleted.  A row whose target
    is a URL causes no call.  The files left are exactly the files that
    were there and that no successful removal of an expired row's
    artifact has unlinked. *)
Theorem cleanup_iteration_reaps (removable : string → bool) (clock : Q) st :
  let now := Py.int clock in
  let st' := (cleanup_iteration removable clock st).1 in
  let calls := (cleanup_iteration removable clock st).2 in
  (∀ c, urls st' !! c
        = r ← urls st !! c; if row_expired now r then None else Some r)
  ∧ (∀ r, row_expired now r = true ↔
          (DELETE_AFTER_SECONDS < now - created_at r)%Z)
  ∧ (∀ r p, file_backed r p ↔
       ∃ rest, target r = "/uploads/" +:+ rest
               ∧ p = if Py.startswith rest "/" then rest
                     else "static/uploads/" +:+ rest)
  ∧ (∀ c p, (c, p) ∈ calls →
       ∃ r, urls st !! c = Some r ∧ row_expired now r = true
            ∧ file_backed r p ∧ realpath p ∈ files st)
  ∧ (∀ c r p, urls st !! c = Some r → row_expired now r = true →
       file_backed r p → realpath p ∈ files st →
       urls st' !! c = None
       ∧ (∃ c' p', (c', p') ∈ calls ∧ realpath p' = realpath p)
       ∧ (removable p = true → realpath p ∉ files st'))
  ∧ (∀ c r, urls st !! c = Some r →
       Py.startswith (target r) "/uploads/" = false →
       ∀ p, (c, p) ∉ calls)
  ∧ (∀ f, f ∈ files st' ↔
       f ∈ files st
       ∧ ¬ (∃ c r p, urls st !! c = Some r ∧ row_expired now r = true
                     ∧ file_backed r p ∧ realpath p = f
                     ∧ removable p = true)).
Proof.
  intros now st' calls. unfold st', calls, now.
  split; [apply cleanup_iteration_urls|].
  split; [intros r; apply row_expired_true|].
  split; [apply file_backed_path|].
  split; [|split; [|split]].
  - intros c p [[]%elem_of_nil|(r & Hin & Hfb & Hp)]%sweep_log_sound.
    exists r. apply elem_of_expired_rows in Hin as [Hr Hexp]. done.
  - intros c r p Hr Hexp Hfb Hp. split; [|split].
    + by rewrite cleanup_iteration_urls, Hr; cbn; rewrite Hexp.
    + eapply sweep_log_complete; [|done..].
      by apply elem_of_expired_rows.
    + intros Hrm [_ Hno]%cleanup_iteration_files. apply Hno.
      exists c, r. split; [done|]. split; [done|].
      apply unlinks_iff. by exists p.
  - intros c r Hr Hurl p
      [[]%elem_of_nil|(r' & Hin & [Hfb _] & _)]%sweep_log_sound.
    apply elem_of_expired_rows in Hin as [Hr' _]. congruence.
  - intros f. rewrite cleanup_iteration_files. split.
    + intros [Hf Hno]. split; [done|].
      intros (c & r & p & Hr & Hexp & Hfb & Hsame & Hrm). apply Hno.
      exists c, r. split; [done|]. split; [done|].
      apply unlinks_iff. by exists p.
    + intros [Hf Hno]. split; [done|].
      intros (c & r & Hr & Hexp & (p & Hfb & Hsame & Hrm)%unlinks_iff).
      apply Hno. by exists c, r, p.
Qed.

(** C4. A second sweep at the same clock reading, with no row written
    in between, finds nothing to do: it leaves the table and the files
    as the first sweep left them and calls [os.remove] on nothing,
    whatever happened to the removals of the first sweep. *)
Theorem cleanup_iteration_idempotent (removable removable' : string → bool)
    (clock : Q) st :
  cleanup_iteration removable' clock (cleanup_iteration removable clock st).1
  = ((cleanup_iteration removable clock st).1, []).
Proof.
  unfold cleanup_iteration at 1.
  by rewrite cleanup_iteration_no_expired.
Qed.

(** The same holds when the clock of the second sweep has not passed
    that of the first. *)
Lemma sweep_again_not_later removable removable' clock clock' st :
  (Py.int clock' ≤ Py.int clock)%Z →
  cleanup_iteration removable' clock' (cleanup_iteration removable clock st).1
  = ((cleanup_iteration removable clock st).1, []).
Proof.
  intros Hle. unfold cleanup_iteration at 1.
  replace (expired_rows _ _) with (@nil (string * Row)); [done|].
  symmetry. unfold expired_rows. apply map_to_list_empty_iff, map_empty.
  intros c. apply map_lookup_filter_None. right. intros r Hr. cbn [snd].
  rewrite cleanup_iteration_urls in Hr.
  destruct (urls st !! c) as [r0|]; [cbn in Hr|done].
  destruct (row_expired (Py.int clock) r0) eqn:Hexp; [done|].
  injection Hr as <-. intros Hexp'%row_expired_true.
  apply Z.ltb_ge in Hexp. lia.
Qed.

(** Two iterations of the daemon's loop at one clock reading amount to
    one. *)
Lemma cleanup_twice removable clock st :
  cleanup removable [clock; clock] st = cleanup removable [clock] st.
Proof.
  unfold cleanup. cbn [foldl].
  by rewrite sweep_again_not_later.
Qed.

End sweep_iteration.

Lemma cleanup_iteration_reaps_witness :
  let swept := @cleanup_iteration sample_platform (λ _, true) 700
                 upload_state in
  let swept' := @cleanup_iteration sample_platform (λ _, true) 700
                  dotdot_state in
  (urls swept.1 !! "x" = None
   ∧ ("x", "static/uploads/1_a.png") ∈ swept.2
   ∧ "static/uploads/1_a.png" ∉ files swept.1)
  ∧ (urls swept'.1 !! "y" = None
     ∧ "static/logo.png" ∉ files swept'.1).
Proof.
  intros swept swept'.
  destruct (proj1 (proj2 (proj2 (proj2 (proj2
              (@cleanup_iteration_reaps sample_platform (λ _, true) 700
                 upload_state)))))
              "x" (mkRow "/uploads/1_a.png" 1 0) "static/uploads/1_a.png"
              ltac:(reflexivity) ltac:(reflexivity)
              ltac:(split; reflexivity) ltac:(vm_compute; reflexivity))
    as (Hrow & _ & Hgone).
  destruct (proj1 (proj2 (proj2 (proj2 (proj2
              (@cleanup_iteration_reaps sample_platform (λ _, true) 700
                 dotdot_state)))))
              "y" (mkRow "/uploads/../logo.png" 1 0)
              "static/uploads/../logo.png"
              ltac:(reflexivity) ltac:(reflexivity)
              ltac:(split; reflexivity) ltac:(vm_compute; reflexivity))
    as (Hrow' & _ & Hgone').
  split; [split; [exact Hrow | split]|split; [exact Hrow'|]].
  - vm_compute. left.
  - apply Hgone. reflexivity.
  - apply Hgone'. reflexivity.
Defined.

(** ** The creation interface *)

Section creation.
Context `{Platform}.
Implicit Types (st : State) (req : UploadForm) (s : string).

Lemma truthy_false s : Py.truthy s = false ↔ s = "".
Proof. by destruct s. Qed.

Lemma or_else_cases s (alt : unit → string) :
  Py.or_else s alt = if decide (s = "") then alt tt else s.
Proof. unfold Py.or_else. by destruct s. Qed.








(** The four branches of [upload_file]. *)
Lemma upload_file_cases entropy t_name t_save req st :
  upload_file entropy t_name t_save req st
  = if has_file req && Py.truthy (url_field req) then
      (mkPage None (Some "Error: Provide EITHER a URL OR a file, not both."),
       st)
    else if has_file req then
      (mkPage (Some (make_short (upload_key entropy req))) None,
       save_mapping (upload_key entropy req)
         ("/uploads/" +:+ stored_name t_name req) t_save
         {| urls := urls st;
            files := {[realpath (Py.os_path_join UPLOAD_FOLDER
                                  (stored_name t_name req))]}
                     ∪ files st |})
    else if Py.truthy (url_field req) then
      (mkPage (Some (make_short (upload_key entropy req))) None,
       save_mapping (upload_key entropy req) (url_field req) t_save st)
    else
      (mkPage None (Some "Error: Please provide a file or a URL."), st).
Proof.
  unfold upload_file, upload_key, has_file, url_field, stored_name.
  by rewrite or_else_cases.
Qed.

(** [upload_file] either rejects the request and changes nothing, or
    files one fresh row under [upload_key]. *)
Lemma upload_file_effect entropy t_name t_save req st :
  let res := upload_file entropy t_name t_save req st in
  (short_url res.1 = None ∧ is_Some (error_message res.1) ∧ res.2 = st)
  ∨ (∃ tgt, short_url res.1 = Some (make_short (upload_key entropy req))
            ∧ error_message res.1 = None
            ∧ urls res.2
              = <[upload_key entropy req := mkRow tgt (Py.int t_save) 0]>
                  (urls st)).
Proof.
  unfold upload_file, upload_key. rewrite or_else_cases.
  destruct (match form_file req with
            | Some name => Py.truthy name | None => false end);
    destruct (Py.truthy (Py.strip (default "" (form_url req))));
    cbn [andb fst snd short_url error_message];
    first [ left; by eauto | right; eexists; by eauto ].
Qed.


End creation.

(** ** Hit accounting *)

Section accounting.
Context `{Platform}.
Implicit Types (st : State) (rq : Request) (c : string) (r : Row).

Lemma redirect_code_state fault clock code st :
  (redirect_code fault clock code st).2
  = if counted (Visit fault clock code) code st
    then increment_hits code st else st.
Proof.
  unfold redirect_code, counted, lookup, get_row.
  destruct (urls st !! code) as [r|]; cbn;
    [destruct (ttl_exceeded clock (created_at r))|];
    destruct fault; cbn; try case_bool_decide; done.
Qed.


(** What one step does to the row of [c]. *)
Lemma handle_row rq st c r' :
  urls (handle rq st) !! c = Some r' →
  match rq with
  | Upload _ _ _ _ => urls st !! c = Some r' ∨ hits r' = 0%Z
  | Visit _ _ _ =>
      ∃ r, urls st !! c = Some r
           ∧ r' = mkRow (target r) (created_at r)
                    (hits r + if counted rq c st then 1 else 0)
  | ReadMetadata _ _ | Sweep _ _ => urls st !! c = Some r'
  end.
Proof.
  destruct rq as [entropy t_name t_save req|fault clock code|clock code
                 |removable clock]; cbn [handle].
  - destruct (upload_file_effect entropy t_name t_save req st)
      as [(_ & _ & ->)|(tgt & _ & _ & ->)]; [by left|].
    destruct (decide (upload_key entropy req = c)) as [->|Hne].
    + rewrite lookup_insert_eq. intros [= <-]. by right.
    + rewrite lookup_insert_ne by done. by left.
  - rewrite redirect_code_state.
    destruct (decide (code = c)) as [->|Hne].
    + destruct (counted (Visit fault clock c) c st).
      * rewrite increment_hits_lookup.
        destruct (urls st !! c) as [r|]; [|done].
        intros [= <-]. by exists r.
      * intros Hr. exists r'. split; [done|]. destruct r'; cbn.
        by rewrite Z.add_0_r.
    + assert (Hc : counted (Visit fault clock code) c st = false).
      { cbn. by rewrite bool_decide_eq_false_2. }
      rewrite Hc. intros Hr. exists r'. split.
      * destruct (counted (Visit fault clock code) code st); [|done].
        by rewrite increment_hits_lookup_ne in Hr.
      * destruct r'; cbn. by rewrite Z.add_0_r.
  - done.
  - rewrite cleanup_iteration_urls.
    destruct (urls st !! c) as [r|]; [cbn|done].
    by destruct (row_expired (Py.int clock) r).
Qed.



End accounting.

Section service.
Context `{Platform}.



End service.




(** ** Interleaved handler threads *)

Section concurrent.
Context `{Platform}.
Implicit Types (v : Visitor) (pg : Progress) (st : State)
  (pool : list (Visitor * Progress)) (c : string) (r : Row).

Lemma filter_length_insert {A} (P : A → Prop) `{!∀ x, Decision (P x)}
    (l : list A) (i : nat) (x y : A) :
  l !! i = Some x →
  length (filter P (<[i:=y]> l)) + (if decide (P x) then 1 else 0)
  = length (filter P l) + (if decide (P y) then 1 else 0).
Proof.
  revert i. induction l as [|a l IH]; intros [|i] Hx; try done.
  - injection Hx as ->. cbn [insert list_insert]. rewrite !filter_cons.
    destruct (decide (P x)), (decide (P y)); cbn; lia.
  - cbn [insert list_insert]. rewrite !filter_cons.
    specialize (IH i Hx). destruct (decide (P a)); cbn; [f_equal|]; exact IH.
Qed.

Lemma tally_insert c pool i x y :
  pool !! i = Some x →
  tally c (<[i:=y]> pool) + (if past_update c x then 1 else 0)
  = tally c pool + (if past_update c y then 1 else 0).
Proof.
  intros Hx. unfold tally.
  pose proof (filter_length_insert (λ vp, past_update c vp = true)
                pool i x y Hx) as Hlen.
  destruct (decide (past_update c x = true)) as [Hpx|Hpx],
           (decide (past_update c y = true)) as [Hpy|Hpy];
    rewrite ?Hpx, ?Hpy, ?(not_true_is_false _ Hpx),
      ?(not_true_is_false _ Hpy);
    exact Hlen.
Qed.

Lemma lookup_Target clock code st code' tgt :
  lookup clock code st = Target code' tgt →
  code' = code
  ∧ ∃ r, urls st !! code = Some r ∧ tgt = target r
         ∧ ttl_exceeded clock (created_at r) = false.
Proof.
  unfold lookup, get_row.
  destruct (urls st !! code) as [r|]; [cbn|done].
  destruct (ttl_exceeded clock (created_at r)) eqn:Httl; [done|].
  intros [= <- <-]. split; [done|]. by exists r.
Qed.

Lemma deliver_past_update c v tgt st :
  past_update c (v, Done (deliver tgt st)) = past_update c (v, Counted tgt).
Proof.
  unfold past_update, deliver, send_from_directory. cbn [fst snd].
  destruct (Py.startswith tgt "/uploads/"); [|done].
  destruct (safe_join UPLOAD_FOLDER (Py.replace_first "/uploads/" "" tgt))
    as [p|]; [|done].
  by destruct (isfile p (files st)).
Qed.

(** *** One scheduled step preserves the invariant *)

Lemma schedule_step_inv c r i cfg :
  pool_inv c r cfg → pool_inv c r (schedule_step i cfg).
Proof.
  destruct cfg as [pool st]. intros [Hall Hrow]. cbn [fst snd] in *.
  unfold schedule_step. cbn [fst snd].
  destruct (pool !! i) as [[v pg]|] eqn:Hi; [|done]. cbn [fst snd].
  pose proof (proj1 (Forall_lookup _ _) Hall i _ Hi) as Hok.
  unfold thread_ok in Hok. cbn [fst snd] in Hok.
  destruct pg as [|code tgt|tgt|resp]; cbn [visit_step].
  - (* the SELECT *)
    assert (Hready : past_update c (v, Ready) = false)
      by (unfold past_update; cbn; apply andb_false_r).
    assert (Hnf : past_update c (v, Done NotFound404) = false)
      by (unfold past_update; cbn; apply andb_false_r).
    assert (Hgone : past_update c (v, Done Gone410) = false)
      by (unfold past_update; cbn; apply andb_false_r).
    assert (Hres : ∀ code tgt, past_update c (v, Resolved code tgt) = false)
      by (intros; unfold past_update; cbn; apply andb_false_r).
    destruct (lookup (v_clock v) (v_code v) st) as [| |code tgt] eqn:Hl;
      cbn [fst snd]; (split; [apply Forall_insert; [done|] |]).
    + unfold thread_ok. cbn [fst snd]. rewrite Hnf.
      unfold succeeds. destruct (decide (v_code v = c)) as [Hc|Hc].
      * rewrite Hc in Hl. rewrite (lookup_present _ _ _ _ Hrow) in Hl.
        by destruct (ttl_exceeded _ _).
      * by rewrite bool_decide_eq_false_2.
    + pose proof (tally_insert c pool i _ (v, Done NotFound404) Hi) as Ht.
      rewrite Hready, Hnf in Ht.
      cbn [fst snd]. rewrite Hrow. do 3 f_equal. lia.
    + unfold thread_ok. cbn [fst snd]. rewrite Hgone.
      unfold succeeds. destruct (decide (v_code v = c)) as [Hc|Hc].
      * rewrite Hc in Hl. rewrite (lookup_present _ _ _ _ Hrow) in Hl.
        cbn [created_at] in Hl.
        destruct (ttl_exceeded _ _); [|done].
        by rewrite andb_false_r.
      * by rewrite bool_decide_eq_false_2.
    + pose proof (tally_insert c pool i _ (v, Done Gone410) Hi) as Ht.
      rewrite Hready, Hgone in Ht.
      cbn [fst snd]. rewrite Hrow. do 3 f_equal. lia.
    + unfold thread_ok. cbn [fst snd].
      apply lookup_Target in Hl as (-> & r0 & Hr0 & -> & Httl).
      split; [done|]. intros Hc. rewrite Hc in Hr0.
      rewrite Hrow in Hr0. injection Hr0 as <-. done.
    + pose proof (tally_insert c pool i _ (v, Resolved code tgt) Hi) as Ht.
      rewrite Hready, Hres in Ht.
      cbn [fst snd]. rewrite Hrow. do 3 f_equal. lia.
  - (* the UPDATE *)
    destruct Hok as [-> Hlive].
    assert (Hbefore : past_update c (v, Resolved (v_code v) tgt) = false).
    { unfold past_update. cbn. by rewrite andb_false_r. }
    unfold count_hit. destruct (v_fault v) eqn:Hf; cbn [fst snd].
    + split.
      * apply Forall_insert; [done|]. unfold thread_ok. cbn [fst snd].
        unfold past_update, succeeds. cbn [fst snd].
        by rewrite Hf, !andb_false_r.
      * pose proof (tally_insert c pool i _ (v, Done Error500) Hi) as Ht.
        rewrite Hbefore in Ht.
        replace (past_update c (v, Done Error500)) with false in Ht
          by (unfold past_update; cbn; by rewrite andb_false_r).
        cbn [fst snd]. rewrite Hrow. do 3 f_equal. lia.
    + pose proof (tally_insert c pool i _ (v, Counted tgt) Hi) as Ht.
      rewrite Hbefore in Ht.
      destruct (decide (v_code v = c)) as [Hc|Hc].
      * assert (Hafter : past_update c (v, Counted tgt) = true).
        { unfold past_update. cbn. by rewrite bool_decide_eq_true_2. }
        rewrite Hafter in Ht. split.
        -- apply Forall_insert; [done|]. unfold thread_ok. cbn [fst snd].
           rewrite Hafter. unfold succeeds.
           by rewrite bool_decide_eq_true_2, Hlive, Hf.
        -- cbn [fst snd]. rewrite Hc, increment_hits_lookup, Hrow. cbn.
           do 2 f_equal. lia.
      * assert (Hafter : past_update c (v, Counted tgt) = false).
        { unfold past_update. cbn. by rewrite bool_decide_eq_false_2. }
        rewrite Hafter in Ht. split.
        -- apply Forall_insert; [done|]. unfold thread_ok. cbn [fst snd].
           rewrite Hafter. unfold succeeds.
           by rewrite bool_decide_eq_false_2.
        -- cbn [fst snd]. rewrite increment_hits_lookup_ne, Hrow by done.
           do 3 f_equal. lia.
  - (* the delivery *)
    cbn [fst snd]. split.
    + apply Forall_insert; [done|]. unfold thread_ok. cbn [fst snd].
      by rewrite deliver_past_update.
    + pose proof (tally_insert c pool i _ (v, Done (deliver tgt st)) Hi) as Ht.
      rewrite deliver_past_update in Ht.
      cbn [fst snd]. rewrite Hrow. do 3 f_equal. lia.
  - cbn [fst snd]. by rewrite list_insert_id.
Qed.

Lemma run_inv c r sched cfg :
  pool_inv c r cfg → pool_inv c r (run sched cfg).
Proof.
  revert cfg. induction sched as [|i sched IH]; intros cfg Hinv; [done|].
  cbn. apply IH. by apply schedule_step_inv.
Qed.

Lemma spawn_inv c r vs st :
  urls st !! c = Some r → pool_inv c r (spawn vs, st).
Proof.
  intros Hr. split; cbn [fst snd].
  - unfold spawn. apply Forall_fmap, Forall_forall. by intros v _.
  - assert (Hz : tally c (spawn vs) = 0).
    { unfold tally, spawn. induction vs as [|v vs IH]; [done|].
      rewrite fmap_cons, filter_cons_False; [done|].
      unfold past_update. cbn. by rewrite andb_false_r. }
    rewrite Hz, Hr. destruct r; cbn. by rewrite Z.add_0_r.
Qed.

End concurrent.

Section schedules.
Context `{Platform}.
Implicit Types (v : Visitor) (pg : Progress) (st : State)
  (pool : list (Visitor * Progress)) (c : string) (r : Row).

(** A thread that runs its three steps without interruption is
    [redirect_code]. *)
Lemma redirect_code_steps fault clock code st :
  let v := mkVisitor code clock fault in
  let s1 := visit_step v Ready st in
  let s2 := visit_step v s1.1 s1.2 in
  let s3 := visit_step v s2.1 s2.2 in
  s3 = (Done (redirect_code fault clock code st).1,
        (redirect_code fault clock code st).2).
Proof.
  unfold redirect_code. cbn.
  destruct (lookup clock code st) as [| |code' tgt]; cbn; [done..|].
  by destruct (count_hit fault code' st).
Qed.

Lemma schedule_step_visitors i cfg :
  (schedule_step i cfg).1.*1 = cfg.1.*1.
Proof.
  unfold schedule_step. destruct (cfg.1 !! i) as [vp|] eqn:Hi; [|done].
  cbn [fst]. rewrite list_fmap_insert. cbn [fst].
  apply list_insert_id. by rewrite list_lookup_fmap, Hi.
Qed.

Lemma run_visitors sched cfg : (run sched cfg).1.*1 = cfg.1.*1.
Proof.
  revert cfg. induction sched as [|i sched IH]; intros cfg; [done|].
  change (run (i :: sched) cfg) with (run sched (schedule_step i cfg)).
  by rewrite IH, schedule_step_visitors.
Qed.

(** *** Progress: every scheduled step of a thread brings it closer to
    its response *)

Lemma visit_step_remaining v pg st :
  remaining (visit_step v pg st).1 ≤ remaining pg - 1.
Proof.
  destruct pg as [|code tgt|tgt|resp]; cbn.
  - destruct (lookup _ _ _); cbn; lia.
  - destruct (count_hit _ _ _); cbn; lia.
  - lia.
  - lia.
Qed.

Lemma schedule_step_remaining i j cfg vp :
  cfg.1 !! j = Some vp →
  ∃ vp', (schedule_step i cfg).1 !! j = Some vp'
         ∧ remaining vp'.2
           ≤ remaining vp.2 - (if decide (i = j) then 1 else 0).
Proof.
  intros Hj. unfold schedule_step.
  destruct (decide (i = j)) as [->|Hne].
  - rewrite Hj. cbn [fst]. eexists. split.
    + apply list_lookup_insert_eq. by eapply lookup_lt_Some.
    + cbn [snd]. apply visit_step_remaining.
  - exists vp. split; [|lia].
    destruct (cfg.1 !! i); [|done]. cbn [fst].
    by rewrite list_lookup_insert_ne.
Qed.

Lemma run_remaining sched cfg j vp :
  cfg.1 !! j = Some vp →
  ∃ vp', (run sched cfg).1 !! j = Some vp'
         ∧ remaining vp'.2 ≤ remaining vp.2 - count_occ Nat.eq_dec sched j.
Proof.
  revert cfg vp. induction sched as [|i sched IH]; intros cfg vp Hj.
  - exists vp. split; [done | cbn; lia].
  - destruct (schedule_step_remaining i j cfg vp Hj) as (vp1 & Hj1 & Hle1).
    destruct (IH _ _ Hj1) as (vp2 & Hj2 & Hle2).
    change (run (i :: sched) cfg) with (run sched (schedule_step i cfg)).
    exists vp2. split; [done|]. cbn [count_occ].
    destruct (Nat.eq_dec i j), (decide (i = j)); try done; lia.
Qed.

Lemma fair_schedule_finishes vs sched st :
  (∀ j, j < length vs → 3 ≤ count_occ Nat.eq_dec sched j) →
  Forall finished (run sched (spawn vs, st)).1.
Proof.
  intros Hfair. apply Forall_lookup. intros j vp' Hj.
  assert (Hlen : j < length vs).
  { apply lookup_lt_Some in Hj.
    rewrite <- (length_fmap fst), run_visitors in Hj. cbn [fst] in Hj.
    unfold spawn in Hj. by rewrite !length_fmap in Hj. }
  destruct (lookup_lt_is_Some_2 vs j Hlen) as [v Hv].
  assert (Hstart : (spawn vs, st).1 !! j = Some (v, Ready)).
  { cbn [fst]. unfold spawn. by rewrite list_lookup_fmap, Hv. }
  destruct (run_remaining sched _ j _ Hstart) as (vp2 & Hj2 & Hle).
  rewrite Hj in Hj2. injection Hj2 as <-.
  specialize (Hfair j Hlen). cbn [snd remaining] in Hle.
  unfold finished. destruct vp'.2; cbn in Hle; [lia..|done].
Qed.

Lemma tally_finished c created pool :
  Forall (thread_ok c created) pool → Forall finished pool →
  tally c pool
  = length (filter (λ v, succeeds c created v = true) pool.*1).
Proof.
  unfold tally.
  induction pool as [|[v pg] pool IH]; intros Hok Hfin; [done|].
  apply Forall_cons in Hok as [Hv Hok]. apply Forall_cons in Hfin as [Hf Hfin].
  specialize (IH Hok Hfin).
  rewrite fmap_cons, !filter_cons. cbn [fst].
  unfold finished in Hf. unfold thread_ok in Hv. cbn [fst snd] in Hf, Hv.
  destruct pg as [| | |resp]; try done.
  rewrite Hv.
  destruct (decide (succeeds c created v = true)); cbn; by rewrite IH.
Qed.

Lemma filter_length_all {A} (P : A → Prop) `{!∀ x, Decision (P x)}
    (l : list A) :
  Forall P l → length (filter P l) = length l.
Proof.
  induction 1 as [|x l Hx Hl IH]; [done|].
  rewrite filter_cons_True by done. cbn. by rewrite IH.
Qed.

(** C9.  Handler threads run [redirect_code] concurrently, their
    database statements interleaved in any order.  Every schedule that
    gives each thread its three steps runs all of them to a response,
    and when all have responded the row of [c] has its counter raised
    by the number of visits of [c] that were within the TTL and whose
    [UPDATE] went through, visits of other codes notwithstanding.  In
    particular [N] successful visits of a fresh row leave [hits = N],
    and each of them got past its [UPDATE]. *)
Theorem concurrent_visits_counted (vs : list Visitor) (sched : list nat)
    st c r :
  urls st !! c = Some r →
  let final := run sched (spawn vs, st) in
  ((∀ j, j < length vs → 3 ≤ count_occ Nat.eq_dec sched j) →
   Forall finished final.1)
  ∧ (Forall finished final.1 →
     urls final.2 !! c
     = Some (mkRow (target r) (created_at r)
               (hits r + Z.of_nat (length
                  (filter (λ v, succeeds c (created_at r) v = true) vs))))
     ∧ (Forall (λ v, succeeds c (created_at r) v = true) vs →
        hits r = 0%Z →
        hits <$> urls final.2 !! c = Some (Z.of_nat (length vs))
        ∧ Forall (λ vp, past_update c vp = true) final.1)).
Proof.
  intros Hr final. split; [apply fair_schedule_finishes|].
  intros Hfin.
  pose proof (run_inv c r sched _ (spawn_inv c r vs st Hr)) as [Hok Hrow].
  fold final in Hok, Hrow.
  assert (Hvs : final.1.*1 = vs).
  { unfold final. rewrite run_visitors. cbn [fst]. unfold spawn.
    rewrite <- list_fmap_compose. apply list_fmap_id. }
  rewrite (tally_finished _ _ _ Hok Hfin), Hvs in Hrow.
  split; [exact Hrow|]. intros Hall Hzero. split.
  - rewrite Hrow. cbn. rewrite Hzero, filter_length_all by done. done.
  - apply Forall_forall. intros vp Hvp.
    pose proof (proj1 (Forall_forall _ _) Hok vp Hvp) as Hthread.
    pose proof (proj1 (Forall_forall _ _) Hfin vp Hvp) as Hdone.
    unfold finished in Hdone. unfold thread_ok in Hthread.
    destruct vp as [v pg]. cbn [fst snd] in *.
    destruct pg; try done. rewrite Hthread.
    apply (proj1 (Forall_forall _ _) Hall v).
    rewrite <- Hvs. apply list_elem_of_fmap. by exists (v, Done resp).
Qed.

End schedules.

(** Three visits of the first scenario's code, their steps interleaved. *)
Lemma concurrent_visits_counted_witness :
  let vs := [mkVisitor "abc123" 10 false; mkVisitor "abc123" 20 false;
             mkVisitor "abc123" 30 false] in
  let final := @run sample_platform [0; 1; 2; 1; 0; 2; 2; 1; 0]
                 (spawn vs, scenario_state) in
  hits <$> urls final.2 !! "abc123" = Some 3%Z
  ∧ Forall (λ vp, past_update "abc123" vp = true) final.1.
Proof.
  intros vs final.
  destruct (@concurrent_visits_counted sample_platform vs
              [0; 1; 2; 1; 0; 2; 2; 1; 0] scenario_state "abc123"
              (mkRow "https://example.com" 0 0) ltac:(reflexivity))
    as [_ Hcount].
  apply Hcount.
  - repeat constructor.
  - repeat constructor.
  - reflexivity.
Defined.

(** * Further properties of the file *)

(** ** The three TTL tests agree *)

Section ttl_tests.
Context `{Platform}.
Implicit Types (st : State) (code : string) (r : Row) (clock : Q).

Lemma inject_Z_sub_le (a b c : Z) :
  (a - b ≤ c)%Z → (inject_Z a - inject_Z b <= inject_Z c)%Q.
Proof.
  intros Hle. rewrite Zle_Qle in Hle.
  unfold Z.sub in Hle. rewrite inject_Z_plus, inject_Z_opp in Hle.
  unfold Qminus. exact Hle.
Qed.

Lemma seconds_left_positive_live clock created :
  (0 < seconds_left clock created)%Z → ttl_exceeded clock created = false.
Proof.
  unfold seconds_left. intros Hpos.
  assert (Hz : (Py.int clock - created ≤ DELETE_AFTER_SECONDS - 1)%Z) by lia.
  apply inject_Z_sub_le in Hz.
  unfold Z.sub in Hz. rewrite inject_Z_plus, inject_Z_opp in Hz.
  destruct (int_within_one clock) as [Hlo _].
  apply ttl_exceeded_false.
  change (inject_Z 1) with 1%Q in Hz. lra.
Qed.

Lemma row_expired_ttl_exceeded clock r :
  row_expired (Py.int clock) r = true →
  ttl_exceeded clock (created_at r) = true.
Proof.
  intros Hexp%row_expired_true.
  assert (Hz : (DELETE_AFTER_SECONDS + 1 - Py.int clock ≤ - created_at r)%Z)
    by lia.
  apply inject_Z_sub_le in Hz.
  rewrite inject_Z_plus, inject_Z_opp in Hz.
  destruct (int_within_one clock) as [_ Hhi].
  apply ttl_exceeded_true.
  change (inject_Z 1) with 1%Q in Hz. lra.
Qed.

(** X1.  The countdown that [metadata] and [admin] show is never
    negative, is at most the TTL for a row stamped no later than the
    reading, and agrees with the redirect: while it is positive the
    redirect at the same clock reading does not answer "expired", and
    once the redirect answers "expired" the countdown is 0. *)
Theorem seconds_left_agrees_with_redirect clock created :
  (0 ≤ seconds_left clock created)%Z
  ∧ ((created ≤ Py.int clock)%Z →
     (seconds_left clock created ≤ DELETE_AFTER_SECONDS)%Z)
  ∧ ((0 < seconds_left clock created)%Z →
     ttl_exceeded clock created = false)
  ∧ (ttl_exceeded clock created = true → seconds_left clock created = 0%Z).
Proof.
  split; [unfold seconds_left; lia|].
  split; [unfold seconds_left, DELETE_AFTER_SECONDS; lia|].
  split; [apply seconds_left_positive_live|].
  intros Hexp.
  destruct (decide (0 < seconds_left clock created)%Z) as [Hpos|Hnpos].
  - apply seconds_left_positive_live in Hpos. congruence.
  - unfold seconds_left in *. lia.
Qed.

(** X2.  The sweep is no stricter than the redirect: a row that the
    sweep's [WHERE] clause selects at a clock reading is one the
    redirect already refuses at that reading.  Hence a code that the
    lookup resolves is still in the table after a sweep at the same
    reading, with its row unchanged. *)
Theorem sweep_spares_what_lookup_resolves removable clock st code :
  (∀ r, row_expired (Py.int clock) r = true →
        ttl_exceeded clock (created_at r) = true)
  ∧ (∀ tgt, lookup clock code st = Target code tgt →
        urls (cleanup_iteration removable clock st).1 !! code
        = urls st !! code
        ∧ lookup clock code (cleanup_iteration removable clock st).1
          = Target code tgt).
Proof.
  split; [intros r; apply row_expired_ttl_exceeded|].
  intros tgt Hl.
  assert (Hrow : urls (cleanup_iteration removable clock st).1 !! code
                 = urls st !! code).
  { rewrite cleanup_iteration_urls.
    unfold lookup, get_row in Hl.
    destruct (urls st !! code) as [r|] eqn:Hr; [cbn in *|done].
    destruct (row_expired (Py.int clock) r) eqn:Hexp; [|done].
    apply row_expired_ttl_exceeded in Hexp. by rewrite Hexp in Hl. }
  split; [exact Hrow|].
  unfold lookup, get_row in *. by rewrite Hrow.
Qed.

(** X3.  A row past its TTL answers 410 as long as it is stored and 404
    once a sweep has run: after the sweep the redirect, the metadata
    endpoint and the QR endpoint all report the code as not found, and
    the redirect leaves the swept state as it is. *)
Theorem swept_code_is_not_found removable clock st code r fault :
  urls st !! code = Some r →
  row_expired (Py.int clock) r = true →
  let st' := (cleanup_iteration removable clock st).1 in
  redirect_code fault clock code st = (Gone410, st)
  ∧ redirect_code fault clock code st' = (NotFound404, st')
  ∧ metadata clock code st' = MetadataNotFound
  ∧ qr_code code st' = QrNotFound.
Proof.
  intros Hr Hexp st'.
  assert (Hgone : urls st' !! code = None).
  { unfold st'. rewrite cleanup_iteration_urls, Hr. cbn. by rewrite Hexp. }
  split; [|split; [|split]].
  - eapply redirect_code_expired; [done|].
    by apply row_expired_ttl_exceeded.
  - by apply redirect_code_absent.
  - unfold metadata, get_row. by rewrite Hgone.
  - unfold qr_code, get_row. by rewrite Hgone.
Qed.

End ttl_tests.

Lemma seconds_left_agrees_with_redirect_witness :
  (seconds_left 599 0 ≤ DELETE_AFTER_SECONDS)%Z
  ∧ ttl_exceeded 599 0 = false
  ∧ seconds_left 601 0 = 0%Z.
Proof.
  destruct (seconds_left_agrees_with_redirect 599 0) as (_ & Hle & Hlive & _).
  destruct (seconds_left_agrees_with_redirect 601 0) as (_ & _ & _ & Hzero).
  split; [|split].
  - apply Hle. vm_compute. discriminate.
  - apply Hlive. reflexivity.
  - apply Hzero. reflexivity.
Defined.

Lemma sweep_spares_what_lookup_resolves_witness :
  urls (@cleanup_iteration sample_platform (λ _, true) 599 scenario_state).1 !! "abc123"
  = urls scenario_state !! "abc123"
  ∧ lookup 599 "abc123" (@cleanup_iteration sample_platform (λ _, true) 599 scenario_state).1
    = Target "abc123" "https://example.com".
Proof.
  apply (proj2 (sweep_spares_what_lookup_resolves
                  (λ _, true) 599 scenario_state "abc123")).
  reflexivity.
Defined.

Lemma swept_code_is_not_found_witness :
  @redirect_code sample_platform false 601 "abc123" scenario_state
  = (Gone410, scenario_state)
  ∧ @redirect_code sample_platform false 601 "abc123"
      (@cleanup_iteration sample_platform (λ _, true) 601 scenario_state).1
    = (NotFound404, (@cleanup_iteration sample_platform (λ _, true) 601 scenario_state).1)
  ∧ metadata 601 "abc123" (@cleanup_iteration sample_platform (λ _, true) 601 scenario_state).1
    = MetadataNotFound
  ∧ @qr_code sample_platform "abc123"
      (@cleanup_iteration sample_platform (λ _, true) 601 scenario_state).1 = QrNotFound.
Proof.
  apply (@swept_code_is_not_found sample_platform (λ _, true) 601
           scenario_state "abc123" (mkRow "https://example.com" 0 0) false).
  - reflexivity.
  - reflexivity.
Defined.

(** ** The daemon over many iterations *)

Section daemon.
Context `{Platform}.
Implicit Types (st : State) (c p f : string) (r : Row) (ticks : list Q).

Lemma cleanup_cons removable t ticks st :
  cleanup removable (t :: ticks) st
  = cleanup removable ticks (cleanup_iteration removable t st).1.
Proof. done. Qed.

Lemma cleanup_files_subseteq removable ticks st :
  files (cleanup removable ticks st) ⊆ files st.
Proof.
  revert st. induction ticks as [|t ticks IH]; intros st; [done|].
  rewrite cleanup_cons. etrans; [apply IH|].
  unfold cleanup_iteration. apply sweep_files_subseteq.
Qed.

(** X4.  However often the daemon runs, it never adds or alters a row
    and never adds a file: after the iterations at the readings [ticks]
    the table holds exactly the rows that were expired at none of them,
    each as it was, and every file that is left was there before. *)
Theorem cleanup_only_deletes removable ticks st c :
  urls (cleanup removable ticks st) !! c
  = (r ← urls st !! c;
     if existsb (λ t, row_expired (Py.int t) r) ticks then None else Some r)
  ∧ files (cleanup removable ticks st) ⊆ files st.
Proof.
  split; [|apply cleanup_files_subseteq].
  revert st. induction ticks as [|t ticks IH]; intros st.
  - cbn. by destruct (urls st !! c).
  - rewrite cleanup_cons, IH, cleanup_iteration_urls.
    destruct (urls st !! c) as [r|]; [cbn|done].
    by destruct (row_expired (Py.int t) r).
Qed.

Lemma cleanup_iteration_keeps_unnamed removable clock st f :
  f ∈ files st →
  (∀ c r p, urls st !! c = Some r → file_backed r p → realpath p ≠ f) →
  f ∈ files (cleanup_iteration removable clock st).1.
Proof.
  intros Hf Hno. apply cleanup_iteration_files. split; [done|].
  intros (c & r & Hr & _ & (p & Hfb & Hsame & _)%unlinks_iff).
  by eapply Hno.
Qed.

Lemma cleanup_keeps_unnamed removable ticks st f :
  f ∈ files st →
  (∀ c r p, urls st !! c = Some r → file_backed r p → realpath p ≠ f) →
  f ∈ files (cleanup removable ticks st).
Proof.
  revert st. induction ticks as [|t ticks IH]; intros st Hf Hno; [done|].
  rewrite cleanup_cons. apply IH.
  - by apply cleanup_iteration_keeps_unnamed.
  - intros c r p Hr. rewrite cleanup_iteration_urls in Hr.
    destruct (urls st !! c) as [r0|] eqn:Hr0; [cbn in Hr|done].
    destruct (row_expired (Py.int t) r0); [done|].
    injection Hr as <-. by eapply Hno.
Qed.

(** X5.  A file that no row of the table denotes is never removed by
    the daemon: if the artifact path of no row, however it is spelt,
    leads to the file, the file is still there after one iteration and
    after many, whatever the clock readings and whatever [os.remove]
    would do. *)
Theorem cleanup_keeps_unnamed_files removable st f :
  f ∈ files st →
  (∀ c r p, urls st !! c = Some r → file_backed r p → realpath p ≠ f) →
  (∀ clock, f ∈ files (cleanup_iteration removable clock st).1)
  ∧ (∀ ticks, f ∈ files (cleanup removable ticks st)).
Proof.
  intros Hf Hno. split.
  - intros clock. by apply cleanup_iteration_keeps_unnamed.
  - intros ticks. by apply cleanup_keeps_unnamed.
Qed.

End daemon.

Lemma cleanup_keeps_unnamed_files_witness :
  "static/logo.png"
    ∈ files (@cleanup sample_platform (λ _, true) [700%Q; 800%Q]
               {| urls := {[ "x" := mkRow "/uploads/1_a.png" 1 0 ]};
                  files := {[ "static/uploads/1_a.png"; "static/logo.png" ]} |}).
Proof.
  apply (@cleanup_keeps_unnamed_files sample_platform).
  - vm_compute. reflexivity.
  - intros c r p Hr [_ <-].
    destruct (decide (c = "x")) as [->|Hne].
    + vm_compute in Hr. injection Hr as <-. vm_compute. discriminate.
    + cbn in Hr. rewrite lookup_singleton_ne in Hr by done. discriminate.
Defined.

(** ** Where artifacts live *)

Section artifacts.
Context `{Platform}.
Implicit Types (st : State) (c p rest : string) (r : Row).

Lemma prefix_app (p s : string) : String.prefix p (p +:+ s) = true.
Proof.
  induction p as [|a p IH]; simpl; [by destruct s|].
  destruct (ascii_dec a a); [exact IH | done].
Qed.

Lemma substring_0_length (s : string) :
  String.substring 0 (String.length s) s = s.
Proof. induction s as [|a s IH]; simpl; [done | by rewrite IH]. Qed.

Lemma substring_past_prefix (a b : string) :
  String.substring (String.length a)
    (String.length (a +:+ b) - String.length a) (a +:+ b) = b.
Proof.
  induction a as [|ch a IH]; simpl.
  - rewrite Nat.sub_0_r. apply substring_0_length.
  - exact IH.
Qed.

Lemma replace_first_unfold old new s :
  Py.replace_first old new s
  = if String.prefix old s
    then new +:+ String.substring (String.length old)
                   (String.length s - String.length old) s
    else match s with
         | EmptyString => EmptyString
         | String c s' => String c (Py.replace_first old new s')
         end.
Proof. by destruct s. Qed.

Lemma replace_first_uploads rest :
  Py.replace_first "/uploads/" "" ("/uploads/" +:+ rest) = rest.
Proof.
  rewrite replace_first_unfold, prefix_app.
  apply (substring_past_prefix "/uploads/" rest).
Qed.

Lemma artifact_path_uploads rest :
  artifact_path ("/uploads/" +:+ rest)
  = if Py.startswith rest "/" then rest else "static/uploads/" +:+ rest.
Proof.
  unfold artifact_path. rewrite replace_first_uploads.
  unfold Py.os_path_join. by destruct (Py.startswith rest "/").
Qed.

(** X6.  The file the sweep unlinks for a target ["/uploads/" + rest] is
    [static/uploads/rest] when [rest] is relative and [rest] itself when
    [rest] begins with a slash: [os.path.join] drops the upload folder
    in front of an absolute path.  A sweep over an expired row with such
    a target therefore removes the file that absolute path leads to, if
    it exists and the removal succeeds. *)
Theorem artifact_path_of_target rest :
  (Py.startswith rest "/" = false →
   artifact_path ("/uploads/" +:+ rest) = "static/uploads/" +:+ rest)
  ∧ (Py.startswith rest "/" = true →
     artifact_path ("/uploads/" +:+ rest) = rest
     ∧ ∀ removable clock st c r,
         urls st !! c = Some r → target r = "/uploads/" +:+ rest →
         row_expired (Py.int clock) r = true →
         realpath rest ∈ files st → removable rest = true →
         realpath rest ∉ files (cleanup_iteration removable clock st).1).
Proof.
  split; intros Hrest.
  - by rewrite artifact_path_uploads, Hrest.
  - assert (Hpath : artifact_path ("/uploads/" +:+ rest) = rest)
      by (by rewrite artifact_path_uploads, Hrest).
    split; [exact Hpath|].
    intros removable clock st c r Hr Htgt Hexp Hin Hrm.
    intros [_ Hno]%cleanup_iteration_files.
    apply Hno. exists c, r. split; [done|]. split; [done|].
    unfold unlinks. rewrite Htgt, Hpath.
    split; [apply prefix_app | done].
Qed.

End artifacts.

Lemma artifact_path_of_target_witness :
  artifact_path "/uploads/1_a.png" = "static/uploads/1_a.png"
  ∧ artifact_path "/uploads//etc/hosts" = "/etc/hosts"
  ∧ "/etc/hosts"
      ∉ files (@cleanup_iteration sample_platform (λ _, true) 700
                 {| urls := {[ "x" := mkRow "/uploads//etc/hosts" 1 0 ]};
                    files := {[ "/etc/hosts" ]} |}).1.
Proof.
  split; [|split].
  - apply (proj1 (@artifact_path_of_target sample_platform "1_a.png")).
    reflexivity.
  - apply (proj2 (@artifact_path_of_target sample_platform "/etc/hosts")).
    reflexivity.
  - apply (proj2 (proj2 (@artifact_path_of_target sample_platform "/etc/hosts")
                   ltac:(reflexivity))
             (λ _, true) 700%Q _ "x" (mkRow "/uploads//etc/hosts" 1 0));
      vm_compute; reflexivity.
Defined.

(** ** Uploads *)

Section uploads.
Context `{Platform}.
Implicit Types (st : State) (req : UploadForm) (c p : string) (r : Row).

Lemma upload_file_frame entropy t_name t_save req st :
  files st ⊆ files (upload_file entropy t_name t_save req st).2
  ∧ (∀ c, c ≠ upload_key entropy req →
          urls (upload_file entropy t_name t_save req st).2 !! c
          = urls st !! c).
Proof.
  rewrite upload_file_cases.
  destruct (has_file req), (Py.truthy (url_field req));
    cbn [andb fst snd urls files save_mapping]; (split; [|intros c Hc]);
    try done; try (by rewrite lookup_insert_ne).
  apply union_subseteq_r.
Qed.


(** *** File names do not begin with a slash *)






(** X9.  A URL that was just filed can be visited: under the key of the
    upload, whatever was stored under it before, a visit within the TTL
    of the new row is redirected to the stripped URL and leaves the row
    with one hit.  (A URL that begins with "/uploads/" is treated as a
    file instead.) *)
Theorem upload_then_visit_redirects entropy t_name t_save req st clock :
  has_file req = false → Py.truthy (url_field req) = true →
  Py.startswith (url_field req) "/uploads/" = false →
  ttl_exceeded clock (Py.int t_save) = false →
  let st1 := (upload_file entropy t_name t_save req st).2 in
  let key := upload_key entropy req in
  (redirect_code false clock key st1).1 = Redirect302 (url_field req)
  ∧ urls (redirect_code false clock key st1).2 !! key
    = Some (mkRow (url_field req) (Py.int t_save) 1).
Proof.
  intros Hfile Hurl Hnot Hlive st1 key.
  assert (Hrow : urls st1 !! key = Some (mkRow (url_field req) (Py.int t_save) 0)).
  { unfold st1. rewrite upload_file_cases, Hfile, Hurl. cbn [andb snd].
    apply save_mapping_lookup. }
  destruct (redirect_code_live st1 key clock _ Hrow Hlive) as [-> _].
  cbn [fst snd target]. split.
  - unfold deliver. by rewrite Hnot.
  - by rewrite increment_hits_lookup, Hrow.
Qed.

End uploads.


Lemma upload_then_visit_redirects_witness :
  let st1 := (@upload_file sample_platform (λ i, i) 1 1
                (mkForm None (Some " https://example.com ") (Some "Ninja"))
                init_db).2 in
  (@redirect_code sample_platform false 600 "Ninja" st1).1
  = Redirect302 "https://example.com"
  ∧ urls (@redirect_code sample_platform false 600 "Ninja" st1).2 !! "Ninja"
    = Some (mkRow "https://example.com" 1 1).
Proof.
  intros st1.
  apply (@upload_then_visit_redirects sample_platform (λ i, i) 1 1
           (mkForm None (Some " https://example.com ") (Some "Ninja"))
           init_db 600); reflexivity.
Defined.

Section replacement.
Context `{Platform}.
Implicit Types (st : State) (req : UploadForm) (c p : string) (r : Row).

(** X10.  Replacing a file-backed entry leaks its artifact.  When the
    row under the key of an upload denoted a file, no other row denotes
    that file, and the row the upload leaves under the key does not
    denote it either, then the file stays in the upload folder through
    every later run of the daemon: the upload does not remove it and no
    sweep will.  A row denotes the file when its artifact path, however
    it is spelt, leads to it. *)
Theorem replaced_artifact_is_never_reaped entropy t_name t_save req st r0 p
    removable ticks :
  let key := upload_key entropy req in
  let st1 := (upload_file entropy t_name t_save req st).2 in
  urls st !! key = Some r0 → file_backed r0 p → realpath p ∈ files st →
  (∀ c r q, c ≠ key → urls st !! c = Some r → file_backed r q →
            realpath q ≠ realpath p) →
  (∀ r q, urls st1 !! key = Some r → file_backed r q →
          realpath q ≠ realpath p) →
  realpath p ∈ files st1
  ∧ realpath p ∈ files (cleanup removable ticks st1).
Proof.
  intros key st1 Hr0 Hfb Hp Hothers Hnew.
  destruct (upload_file_frame entropy t_name t_save req st)
    as [Hfiles Hframe].
  assert (Hp1 : realpath p ∈ files st1) by (by apply Hfiles).
  split; [exact Hp1|].
  apply cleanup_keeps_unnamed; [exact Hp1|].
  intros c r q Hr. destruct (decide (c = key)) as [->|Hne].
  - by apply Hnew.
  - rewrite Hframe in Hr by done. by eapply Hothers.
Qed.

End replacement.

Lemma replaced_artifact_is_never_reaped_witness :
  "static/uploads/1_a.png"
    ∈ files (@cleanup sample_platform (λ _, true) [700%Q; 800%Q]
               (@upload_file sample_platform (λ i, i) 2 2
                  (mkForm None (Some "https://example.com") (Some "x"))
                  upload_state).2).
Proof.
  apply (@replaced_artifact_is_never_reaped sample_platform (λ i, i) 2 2
           (mkForm None (Some "https://example.com") (Some "x"))
           upload_state (mkRow "/uploads/1_a.png" 1 0)
           "static/uploads/1_a.png" (λ _, true) [700%Q; 800%Q]).
  - reflexivity.
  - split; reflexivity.
  - vm_compute. reflexivity.
  - intros c r q Hne Hr. cbn in Hr.
    rewrite lookup_singleton_ne in Hr by done. discriminate.
  - intros r q Hr [Hfb _]. vm_compute in Hr. injection Hr as <-.
    vm_compute in Hfb. discriminate.
Defined.

(** ** Short links *)

Section short_links.
Context `{Platform}.
Implicit Types (s t code : string) (sep : ascii).

Lemma append_assoc (a b c : string) : (a +:+ b) +:+ c = a +:+ (b +:+ c).
Proof.
  induction a as [|ch a IH]; [done|].
  change (String ch ((a +:+ b) +:+ c) = String ch (a +:+ b +:+ c)).
  by f_equal.
Qed.

Lemma has_char_app_sep sep s t : has_char sep (s +:+ String sep t) = true.
Proof.
  induction s as [|ch s IH]; simpl.
  - by rewrite Ascii.eqb_refl.
  - rewrite IH. apply orb_true_r.
Qed.

Lemma last_segment_after sep s t :
  has_char sep t = false → last_segment sep (s +:+ String sep t) = t.
Proof.
  intros Ht. induction s as [|ch s IH]; simpl.
  - by rewrite Ht, Ascii.eqb_refl.
  - by rewrite has_char_app_sep.
Qed.

Lemma last_segment_has_no_sep sep s :
  has_char sep (last_segment sep s) = false.
Proof.
  induction s as [|ch s IH]; simpl; [done|].
  destruct (has_char sep s) eqn:Hs; [exact IH|].
  destruct (Ascii.eqb ch sep) eqn:Hch; [exact Hs|].
  simpl. by rewrite Hch, Hs.
Qed.

Lemma make_short_split code :
  make_short code
  = ("http://" +:+ LOCAL_IP +:+ ":5050") +:+ String "/" code.
Proof.
  unfold make_short, BASE_URL.
  change (pretty PORT) with "5050".
  by rewrite !append_assoc.
Qed.

(** X11.  The short link and the QR link of the page agree on the code:
    the last path segment of [make_short code], which the page puts
    into its [/qr/...] link, is the code itself exactly when the code
    contains no slash.  Distinct codes never share a short link. *)
Theorem make_short_round_trip code :
  (has_char "/" code = false → last_segment "/" (make_short code) = code)
  ∧ (has_char "/" code = true → last_segment "/" (make_short code) ≠ code)
  ∧ (∀ code', make_short code = make_short code' → code = code').
Proof.
  split; [|split].
  - intros Hcode. rewrite make_short_split. by apply last_segment_after.
  - intros Hcode Heq.
    pose proof (last_segment_has_no_sep "/" (make_short code)) as Hno.
    rewrite Heq in Hno. congruence.
  - intros code' Heq. unfold make_short in Heq.
    by apply (inj (String.app BASE_URL)) in Heq.
Qed.

(** *** The hostname redirect *)

Lemma split_head_before sep s t :
  has_char sep s = false → split_head sep (s +:+ String sep t) = s.
Proof.
  induction s as [|ch s IH]; simpl.
  - intros _. by rewrite Ascii.eqb_refl.
  - intros [Hch Hs]%orb_false_elim. by rewrite Hch, IH.
Qed.

Lemma split_head_whole sep s : has_char sep s = false → split_head sep s = s.
Proof.
  induction s as [|ch s IH]; simpl; [done|].
  intros [Hch Hs]%orb_false_elim. by rewrite Hch, IH.
Qed.

Lemma rstrip_char_app ch s t :
  rstrip_char ch t ≠ "" → rstrip_char ch (s +:+ t) = s +:+ rstrip_char ch t.
Proof.
  intros Ht. induction s as [|c s IH]; [reflexivity|].
  change (rstrip_char ch (String c (s +:+ t))
          = String c (s +:+ rstrip_char ch t)).
  cbn [rstrip_char]. rewrite IH.
  destruct (s +:+ rstrip_char ch t) eqn:Hs; [|done].
  exfalso. destruct s; [by apply Ht | discriminate].
Qed.

Lemma rstrip_BASE_URL :
  rstrip_char "/" BASE_URL = "http://" +:+ LOCAL_IP +:+ ":5050".
Proof.
  unfold BASE_URL. change (pretty PORT) with "5050".
  change (":" +:+ "5050" +:+ "/") with ":5050/".
  rewrite (rstrip_char_app "/" "http://").
  - by rewrite (rstrip_char_app "/" LOCAL_IP).
  - rewrite (rstrip_char_app "/" LOCAL_IP) by done.
    by destruct LOCAL_IP.
Qed.

(** X12.  The hostname redirect cannot loop.  Whenever the hook answers
    a 301, its location is [http://<LOCAL_IP>:5050] followed by the
    path and query of the request, without a doubled slash; and, the
    address containing no colon, a request whose [Host] is the address,
    with or without a port, is let through.  So the request that
    follows the redirect is served. *)
Theorem force_ip_host_redirects_once gethostname full_path :
  has_char ":" LOCAL_IP = false →
  force_ip_host gethostname LOCAL_IP full_path = None
  ∧ (∀ port, force_ip_host gethostname (LOCAL_IP +:+ ":" +:+ port) full_path
             = None)
  ∧ (∀ request_host location,
       force_ip_host gethostname request_host full_path = Some location →
       location = "http://" +:+ LOCAL_IP +:+ ":5050" +:+ full_path
       ∧ split_head ":" request_host ≠ LOCAL_IP
       ∧ Py.startswith (split_head ":" request_host)
           (split_head "." gethostname) = true).
Proof.
  intros Hip. split; [|split].
  - unfold force_ip_host. rewrite split_head_whole by done.
    by rewrite String.eqb_refl.
  - intros port. unfold force_ip_host.
    change (LOCAL_IP +:+ ":" +:+ port) with (LOCAL_IP +:+ String ":" port).
    rewrite split_head_before by done. by rewrite String.eqb_refl.
  - intros request_host location. unfold force_ip_host, HOSTNAME.
    destruct (String.eqb (split_head ":" request_host) LOCAL_IP) eqn:Heq;
      [done|].
    destruct (Py.startswith _ _) eqn:Hstart; [|done].
    cbn [negb andb]. intros Hsome.
    assert (Hloc : location = rstrip_char "/" BASE_URL +:+ full_path)
      by congruence.
    split; [|split; [|done]].
    + by rewrite Hloc, rstrip_BASE_URL, !append_assoc.
    + intros Hsame. rewrite Hsame, String.eqb_refl in Heq. done.
Qed.

(** X13.  The QR endpoint applies no TTL: for every stored row it
    returns the QR code of the short link, also for a row past its TTL
    for which the redirect answers 410; it answers "not found" exactly
    when no row is stored. *)
Theorem qr_code_ignores_ttl code st :
  (qr_code code st = QrNotFound ↔ urls st !! code = None)
  ∧ (∀ r clock fault, urls st !! code = Some r →
       ttl_exceeded clock (created_at r) = true →
       qr_code code st = QrImage (make_short code)
       ∧ (redirect_code fault clock code st).1 = Gone410).
Proof.
  split.
  - unfold qr_code. rewrite <- get_row_None.
    by destruct (get_row code st).
  - intros r clock fault Hr Hexp. split.
    + unfold qr_code. by rewrite (get_row_Some _ _ _ Hr).
    + by rewrite (redirect_code_expired _ _ _ _ fault Hr Hexp).
Qed.

End short_links.

Lemma make_short_round_trip_witness :
  last_segment "/" (@make_short sample_platform "Ninja") = "Ninja"
  ∧ last_segment "/" (@make_short sample_platform "a/b") ≠ "a/b".
Proof.
  split.
  - apply (proj1 (@make_short_round_trip sample_platform "Ninja")).
    reflexivity.
  - apply (proj1 (proj2 (@make_short_round_trip sample_platform "a/b"))).
    reflexivity.
Defined.

Lemma force_ip_host_redirects_once_witness :
  @force_ip_host sample_platform "myhost.local" "192.168.1.20:5050" "/abc?"
  = None
  ∧ (∀ location,
       @force_ip_host sample_platform "myhost.local" "myhost:5050" "/abc?"
       = Some location →
       location = "http://192.168.1.20:5050/abc?").
Proof.
  destruct (@force_ip_host_redirects_once sample_platform "myhost.local"
              "/abc?" ltac:(reflexivity)) as (_ & Hport & Hloc).
  split.
  - apply (Hport "5050").
  - intros location Hsome. apply (Hloc "myhost:5050" location Hsome).
Defined.

Lemma qr_code_ignores_ttl_witness :
  @qr_code sample_platform "abc123" scenario_state
  = QrImage "http://192.168.1.20:5050/abc123"
  ∧ (@redirect_code sample_platform false 601 "abc123" scenario_state).1
    = Gone410.
Proof.
  apply (proj2 (@qr_code_ignores_ttl sample_platform "abc123" scenario_state)
           (mkRow "https://example.com" 0 0) 601%Q false); reflexivity.
Defined.

(** ** The admin listing *)

Section admin.
Implicit Types (st : State) (c q : string) (r : Row) (e : string * Row)
  (pattern text : list ascii).






(** *** What [LIKE] accepts *)









End admin.



(** ** The reaper between a visit's check and its [UPDATE] *)

Section race.
Context `{Platform}.
Implicit Types (st : State) (v : Visitor) (r : Row).

Lemma increment_hits_absent code st :
  urls st !! code = None → increment_hits code st = st.
Proof.
  intros Hnone. destruct st as [table fs]. unfold increment_hits.
  cbn [urls files] in *. f_equal.
  apply alter_id. intros x Hx. congruence.
Qed.

(** X16.  A visit that has passed its TTL check is served even when the
    reaper deletes the row before the visit's [UPDATE]: the [UPDATE]
    then matches no row, raises nothing and changes nothing, the hit is
    counted nowhere, and the handler goes on to deliver the target it
    read (the redirect for a URL; for a file whatever
    [send_from_directory] finds after the sweep). *)
Theorem reaper_between_check_and_update v st r removable clock :
  urls st !! v_code v = Some r →
  ttl_exceeded (v_clock v) (created_at r) = false →
  v_fault v = false →
  row_expired (Py.int clock) r = true →
  let s1 := visit_step v Ready st in
  let swept := (cleanup_iteration removable clock s1.2).1 in
  let s2 := visit_step v s1.1 swept in
  let s3 := visit_step v s2.1 s2.2 in
  s1 = (Resolved (v_code v) (target r), st)
  ∧ urls swept !! v_code v = None
  ∧ s3 = (Done (deliver (target r) swept), swept)
  ∧ (Py.startswith (target r) "/uploads/" = false →
     s3.1 = Done (Redirect302 (target r))).
Proof.
  intros Hr Hlive Hfault Hexp s1 swept s2 s3.
  assert (Hs1 : s1 = (Resolved (v_code v) (target r), st)).
  { unfold s1. cbn [visit_step].
    by rewrite (lookup_present _ _ _ _ Hr), Hlive. }
  assert (Hgone : urls swept !! v_code v = None).
  { unfold swept. rewrite Hs1. cbn [snd].
    rewrite cleanup_iteration_urls, Hr. cbn. by rewrite Hexp. }
  assert (Hs3 : s3 = (Done (deliver (target r) swept), swept)).
  { unfold s3, s2. rewrite Hs1. cbn [fst visit_step].
    unfold count_hit. rewrite Hfault.
    by rewrite (increment_hits_absent _ _ Hgone). }
  split; [exact Hs1|]. split; [exact Hgone|]. split; [exact Hs3|].
  intros Hurl. rewrite Hs3. cbn [fst]. unfold deliver. by rewrite Hurl.
Qed.

End race.

Lemma reaper_between_check_and_update_witness :
  let v := mkVisitor "abc123" 599 false in
  let swept := (@cleanup_iteration sample_platform (λ _, true) 601 scenario_state).1 in
  urls swept !! "abc123" = None
  ∧ @visit_step sample_platform v
      (@visit_step sample_platform v
         (@visit_step sample_platform v Ready scenario_state).1 swept).1
      (@visit_step sample_platform v
         (@visit_step sample_platform v Ready scenario_state).1 swept).2
    = (Done (Redirect302 "https://example.com"), swept).
Proof.
  intros v swept.
  destruct (@reaper_between_check_and_update sample_platform v scenario_state
              (mkRow "https://example.com" 0 0) (λ _, true) 601%Q
              ltac:(reflexivity) ltac:(reflexivity) ltac:(reflexivity)
              ltac:(reflexivity)) as (_ & Hgone & Hs3 & _).
  split; [exact Hgone | exact Hs3].
Defined.

(** ** Rows over a run of requests *)

Section runs.
Context `{Platform}.
Implicit Types (st : State) (rq : Request) (rqs : list Request)
  (c : string) (r : Row).

Lemma counted_visits rq c st : counted rq c st = true → visits c rq = true.
Proof.
  destruct rq; cbn; try done.
  by intros [[? _]%andb_true_iff _]%andb_true_iff.
Qed.

Lemma handle_all_rows rqs st c r' :
  forallb (λ rq, negb (is_upload rq)) rqs = true →
  urls (handle_all rqs st) !! c = Some r' →
  ∃ r, urls st !! c = Some r
       ∧ target r' = target r ∧ created_at r' = created_at r
       ∧ (hits r ≤ hits r'
          ≤ hits r + Z.of_nat (length (filter (λ rq, visits c rq = true) rqs)))%Z.
Proof.
  revert st. induction rqs as [|rq rqs IH]; intros st Hno Hr'.
  { exists r'. cbn in *. repeat split; [done|lia..]. }
  cbn [forallb] in Hno. apply andb_true_iff in Hno as [Hrq Hno].
  change (handle_all (rq :: rqs) st) with (handle_all rqs (handle rq st)) in Hr'.
  destruct (IH _ Hno Hr') as (r1 & Hr1 & Htgt & Hcr & Hlo & Hhi).
  rewrite filter_cons.
  pose proof (handle_row rq st c r1 Hr1) as Hstep.
  destruct rq as [| fault clock code | |]; [done| | |].
  - destruct Hstep as (r & Hr & ->). exists r. cbn [target created_at hits] in *.
    split; [done|]. split; [done|]. split; [done|].
    pose proof (counted_visits (Visit fault clock code) c st) as Hcv.
    destruct (counted (Visit fault clock code) c st).
    + rewrite decide_True by (by apply Hcv). cbn [length]. lia.
    + destruct (decide (visits c (Visit fault clock code) = true));
        cbn [length]; lia.
  - exists r1. rewrite decide_False by done. repeat split; [done..|lia|lia].
  - exists r1. rewrite decide_False by done. repeat split; [done..|lia|lia].
Qed.

(** X17.  Only an upload creates or replaces a row.  Over any run of
    visits, metadata reads and sweeps, a code without a row stays
    without one, and a row that is still stored at the end is the row
    of the start with the same target and creation time; its hit
    counter has not gone down and has gone up by at most the number of
    visits of that code in the run. *)
Theorem rows_change_only_by_upload rqs st c :
  forallb (λ rq, negb (is_upload rq)) rqs = true →
  (urls st !! c = None → urls (handle_all rqs st) !! c = None)
  ∧ (∀ r', urls (handle_all rqs st) !! c = Some r' →
       ∃ r, urls st !! c = Some r
            ∧ target r' = target r ∧ created_at r' = created_at r
            ∧ (hits r ≤ hits r'
               ≤ hits r + Z.of_nat (length
                   (filter (λ rq, visits c rq = true) rqs)))%Z).
Proof.
  intros Hno. split.
  - intros Hnone.
    destruct (urls (handle_all rqs st) !! c) as [r'|] eqn:Hr'; [|done].
    destruct (handle_all_rows _ _ _ _ Hno Hr') as (r & Hr & _). congruence.
  - intros r'. by apply handle_all_rows.
Qed.

End runs.

Lemma rows_change_only_by_upload_witness :
  urls (@handle_all sample_platform
          [Visit false 10 "abc123"; ReadMetadata 20 "abc123";
           Sweep (λ _, true) 30; Visit false 40 "nobody"]
          scenario_state) !! "nobody" = None.
Proof.
  apply (proj1 (@rows_change_only_by_upload sample_platform
                  [Visit false 10 "abc123"; ReadMetadata 20 "abc123";
                   Sweep (λ _, true) 30; Visit false 40 "nobody"]
                  scenario_state "nobody" ltac:(reflexivity))).
  reflexivity.
Defined.

(** ** A removal that fails *)

Section failed_removal.
Context `{Platform}.
Implicit Types (st : State) (c p q : string) (r : Row).

(** X18.  A removal that fails is never retried.  When the sweep deletes
    an expired file-backed row but [os.remove] fails on its artifact,
    the file stays, and since the row is gone and no other row denotes
    the file, no later run of the daemon removes it, even if the
    removal would then succeed.  A row denotes the file when its
    artifact path, however it is spelt, leads to it. *)
Theorem failed_removal_is_never_retried removable clock st c r p
    removable' ticks :
  urls st !! c = Some r → row_expired (Py.int clock) r = true →
  file_backed r p → realpath p ∈ files st → removable p = false →
  (∀ c' r' q, c' ≠ c → urls st !! c' = Some r' → file_backed r' q →
              realpath q ≠ realpath p) →
  let swept := (cleanup_iteration removable clock st).1 in
  urls swept !! c = None
  ∧ realpath p ∈ files swept
  ∧ realpath p ∈ files (cleanup removable' ticks swept).
Proof.
  intros Hr Hexp Hfb Hp Hfail Hothers swept.
  assert (Hgone : urls swept !! c = None).
  { unfold swept. rewrite cleanup_iteration_urls, Hr. cbn. by rewrite Hexp. }
  assert (Hstay : realpath p ∈ files swept).
  { unfold swept. apply cleanup_iteration_files. split; [done|].
    intros (c' & r' & Hr' & _ & (q & Hq & Hsame & Hrm)%unlinks_iff).
    destruct (decide (c' = c)) as [->|Hne].
    - assert (r' = r) as -> by congruence.
      destruct Hfb as [_ Hpath], Hq as [_ Hpath']. congruence.
    - by eapply Hothers. }
  split; [exact Hgone|]. split; [exact Hstay|].
  apply cleanup_keeps_unnamed; [exact Hstay|].
  intros c' r' q Hr'. destruct (decide (c' = c)) as [->|Hne]; [congruence|].
  unfold swept in Hr'. rewrite cleanup_iteration_urls in Hr'.
  destruct (urls st !! c') as [r0|] eqn:Hr0; [cbn in Hr'|done].
  destruct (row_expired (Py.int clock) r0); [done|].
  injection Hr' as <-. by eapply Hothers.
Qed.

End failed_removal.

Lemma failed_removal_is_never_retried_witness :
  let swept := (@cleanup_iteration sample_platform (λ _, false) 700
                  {| urls := {[ "x" := mkRow "/uploads/1_a.png" 1 0;
                                "y" := mkRow "/uploads/../logo.png" 1 0 ]};
                     files := {[ "static/uploads/1_a.png";
                                 "static/logo.png" ]} |}).1 in
  urls swept !! "x" = None
  ∧ "static/uploads/1_a.png" ∈ files swept
  ∧ "static/uploads/1_a.png"
      ∈ files (@cleanup sample_platform (λ _, true) [800%Q; 900%Q] swept).
Proof.
  apply (@failed_removal_is_never_retried sample_platform (λ _, false) 700%Q
           {| urls := {[ "x" := mkRow "/uploads/1_a.png" 1 0;
                         "y" := mkRow "/uploads/../logo.png" 1 0 ]};
              files := {[ "static/uploads/1_a.png"; "static/logo.png" ]} |}
           "x" (mkRow "/uploads/1_a.png" 1 0) "static/uploads/1_a.png"
           (λ _, true) [800%Q; 900%Q]).
  - reflexivity.
  - reflexivity.
  - split; reflexivity.
  - vm_compute. reflexivity.
  - reflexivity.
  - intros c' r' q Hne Hr' [_ <-].
    destruct (decide (c' = "y")) as [->|Hne'].
    + vm_compute in Hr'. injection Hr' as <-. vm_compute. discriminate.
    + cbn in Hr'. rewrite lookup_insert_ne, lookup_singleton_ne in Hr' by done.
      discriminate.
Defined.

